(** * A shallow embedding of [scraper.py] and [dynamic_scraper.py]

    [Scraper] (a requests/urllib3 based fetcher) and [DynamicScraper]
    (a Selenium based fetcher) are modelled as records of their instance
    attributes.  Python exceptions are an inductive type [Exn], and methods
    that mutate [self] are written in a small state-and-exception monad in
    which, as in Python, the mutations made before an exception is raised
    are kept.  The third-party libraries (requests, urllib3's [Retry],
    Selenium's [WebDriverWait], BeautifulSoup) are modelled only as far as
    the two classes use them. *)

From Stdlib Require Import String Ascii List ZArith NArith Bool Lia.
Import ListNotations.
Open Scope string_scope.
Open Scope Z_scope.

(** ** Python values and exceptions *)

(** The dynamically typed arguments a caller can pass. *)
Inductive PyVal : Type :=
| PyNone
| PyBool (b : bool)
| PyInt (z : Z)
| PyStr (s : string)
| PyList (l : list Z).

(** Python truthiness ([bool(v)]). *)
Definition truthy (v : PyVal) : bool :=
  match v with
  | PyNone => false
  | PyBool b => b
  | PyInt z => negb (z =? 0)
  | PyStr s => negb (String.eqb s "")
  | PyList l => match l with [] => false | _ => true end
  end.

(** The exception classes raised or caught by the two classes.
    [ConnectionError], [ReadTimeout] and [HTTPError] are subclasses of
    requests' [RequestException]; Selenium's [TimeoutException] is a
    subclass of its [WebDriverException]. *)
Inductive Exn : Type :=
| ValueError (msg : string)
| ConnectionError
| ReadTimeout
| HTTPError (status : Z)
| OtherRequestException
| TimeoutException
| WebDriverException
| OtherError.

Definition is_request_exception (e : Exn) : bool :=
  match e with
  | ConnectionError | ReadTimeout | HTTPError _ | OtherRequestException => true
  | _ => false
  end.

Definition is_webdriver_exception (e : Exn) : bool :=
  match e with
  | TimeoutException | WebDriverException => true
  | _ => false
  end.

(** Outcome of a Python call: a return value or a raised exception. *)
Inductive Result (A : Type) : Type :=
| Ok (a : A)
| Raise (e : Exn).
Arguments Ok {A} a.
Arguments Raise {A} e.

(** ** A state-and-exception monad

    [M S A] runs against the object [self : S]; an exception does not roll
    back the assignments made before it. *)
Definition M (S A : Type) : Type := S -> Result A * S.

Definition ret {S A} (a : A) : M S A := fun s => (Ok a, s).
Definition raise {S A} (e : Exn) : M S A := fun s => (Raise e, s).
Definition bind {S A B} (m : M S A) (k : A -> M S B) : M S B :=
  fun s => match m s with
           | (Ok a, s') => k a s'
           | (Raise e, s') => (Raise e, s')
           end.
Definition get {S} : M S S := fun s => (Ok s, s).
Definition put {S} (s : S) : M S unit := fun _ => (Ok tt, s).

(** [try m except h]: [h] decides, per exception, whether it is handled
    (returning [Some handler]) or re-raised ([None]). *)
Definition try_except {S A} (m : M S A) (h : Exn -> option (M S A)) : M S A :=
  fun s => match m s with
           | (Raise e, s') =>
               match h e with Some k => k s' | None => (Raise e, s') end
           | r => r
           end.

Notation "x <- m ;; k" := (bind m (fun x => k))
  (at level 61, m at next level, right associativity).
Notation "m ;;; k" := (bind m (fun _ => k))
  (at level 61, right associativity).

(** [str.startswith(prefix)] *)
Definition startswith (s pre : string) : bool := String.prefix pre s.

(** The URL setter shared, line for line, by both classes
    ([Scraper.url] and [DynamicScraper.url] setters). *)
Definition check_url (url : PyVal) : Result string :=
  if negb (truthy url) then Raise (ValueError "URL cannot be None")
  else match url with
       | PyStr s =>
           if negb (startswith s "http")
           then Raise (ValueError "URL must start with http or https")
           else Ok s
       | _ => Raise (ValueError "URL must be a string")
       end.

(** ** urllib3's [Retry] and the request loop of [HTTPAdapter] *)

Record Retry : Type := mkRetry {
  retry_total : Z;
  retry_backoff_factor : Z;
  retry_status_forcelist : list Z;
  retry_raise_on_status : bool
}.

(** What the [k]-th request (from 0) of one [urlopen] gets: an error of
    the connection ([NewConnectionError], [ConnectTimeoutError],
    [ReadTimeoutError], [ProtocolError], ...), or a response with its status
    and its [Retry-After] header: absent, present but empty, a value that
    [Retry.parse_retry_after] turns into [secs] seconds (delta-seconds, or
    the seconds until the HTTP-date, never negative), or a value it rejects
    with [InvalidHeader]. *)
Inductive RetryAfter : Type :=
| NoRetryAfter
| RetryAfterEmpty
| RetryAfterSecs (secs : Z)
| RetryAfterInvalid.

Inductive Attempt : Type :=
| AttemptError
| AttemptResponse (status : Z) (retry_after : RetryAfter).

(** [bool(response.headers.get("Retry-After"))] *)
Definition has_retry_after (ra : RetryAfter) : bool :=
  match ra with
  | RetryAfterSecs _ | RetryAfterInvalid => true
  | NoRetryAfter | RetryAfterEmpty => false
  end.

(** [Retry.RETRY_AFTER_STATUS_CODES] *)
Definition RETRY_AFTER_STATUS_CODES : list Z := [413; 429; 503].

Definition in_forcelist (r : Retry) (status : Z) : bool :=
  existsb (Z.eqb status) (retry_status_forcelist r).

(** [Retry.is_retry] for a GET (an idempotent method), where [total] is the
    [total] of the current [Retry] object (the configured one lowered by one
    per earlier retry) and [respect_retry_after_header] has its default
    [True]. *)
Definition is_retry (r : Retry) (total : Z) (status : Z) (has_ra : bool) : bool :=
  if in_forcelist r status then true
  else negb (Z.eqb total 0) && has_ra && existsb (Z.eqb status) RETRY_AFTER_STATUS_CODES.

(** [Retry.get_backoff_time] after [n] consecutive errors
    (no backoff before the second retry; capped at [DEFAULT_BACKOFF_MAX]). *)
Definition backoff_time (r : Retry) (n : nat) : Z :=
  if (n <=? 1)%nat then 0
  else Z.min 120 (retry_backoff_factor r * 2 ^ (Z.of_nat n - 1)).

(** [Retry.sleep(response)] after the [n]-th error: [sleep_for_retry]
    sleeps the parsed [Retry-After] value when it is truthy, otherwise the
    backoff applies; parsing an empty or malformed header raises urllib3's
    [InvalidHeader], which requests re-raises as its [InvalidHeader] (a
    [RequestException]). *)
Definition retry_sleep (r : Retry) (n : nat) (ra : RetryAfter) : Result Z :=
  match ra with
  | NoRetryAfter => Ok (backoff_time r n)
  | RetryAfterSecs secs => if Z.eqb secs 0 then Ok (backoff_time r n) else Ok secs
  | RetryAfterEmpty | RetryAfterInvalid => Raise OtherRequestException
  end.

(** The outcome of one [urlopen]: the status of the response returned, the
    number of requests sent and the sleeps between them, in seconds. *)
Record HttpReply : Type := mkReply {
  reply_status : Z;
  reply_attempts : nat;
  reply_sleeps : list Z
}.

(** [HTTPConnectionPool.urlopen] with [redirect=False] (as [HTTPAdapter.send]
    calls it) and its [Retry]: every error and every retried response goes
    through [Retry.increment], which lowers [total] by one; once [total]
    would become negative the [Retry] is exhausted.  An exhausted error
    raises [MaxRetryError], which requests raises as [ConnectionError] (or
    one of its subclasses); an exhausted response is returned as it is with
    [raise_on_status=False] ([RetryError] otherwise).  [left] is what is
    left of [total], [k] the number of requests already sent. *)
Fixpoint urlopen_from (r : Retry) (server : nat -> Attempt) (left : nat) (k : nat)
  : Result HttpReply :=
  match server k with
  | AttemptError =>
      match left with
      | O => Raise ConnectionError
      | S l =>
          match urlopen_from r server l (S k) with
          | Ok rep =>
              Ok (mkReply (reply_status rep) (reply_attempts rep)
                          (backoff_time r (S k) :: reply_sleeps rep))
          | Raise e => Raise e
          end
      end
  | AttemptResponse st ra =>
      if is_retry r (retry_total r - Z.of_nat k) st (has_retry_after ra) then
        match left with
        | O =>
            if retry_raise_on_status r then Raise OtherRequestException
            else Ok (mkReply st (S k) [])
        | S l =>
            match retry_sleep r (S k) ra with
            | Raise e => Raise e
            | Ok t =>
                match urlopen_from r server l (S k) with
                | Ok rep =>
                    Ok (mkReply (reply_status rep) (reply_attempts rep)
                                (t :: reply_sleeps rep))
                | Raise e => Raise e
                end
            end
        end
      else Ok (mkReply st (S k) [])
  end.

Definition urlopen_attempts (r : Retry) (server : nat -> Attempt) : Result HttpReply :=
  urlopen_from r server (Z.to_nat (retry_total r)) 0.

(** A server that answers the [k]-th request with the status [server k] and
    no [Retry-After] header, and [urlopen] against it. *)
Definition plain (server : nat -> Z) : nat -> Attempt :=
  fun k => AttemptResponse (server k) NoRetryAfter.

Definition urlopen (r : Retry) (server : nat -> Z) : Result HttpReply :=
  urlopen_attempts r (plain server).

(** ** [Scraper] (scraper.py) *)

(** A [dict[str, str]] of headers, in insertion order. *)
Definition Headers : Type := list (string * string).

(** A parsed [BeautifulSoup] document: [BeautifulSoup(content, ...)]. *)
Record Soup : Type := mkSoup { soup_content : string }.

(** A [requests.Session]: its mounted adapters (prefix and retry policy)
    and its [proxies] mapping. *)
Record Session : Type := mkSession {
  sess_mounts : list (string * Retry);
  sess_proxies : list (string * string)
}.

(** The attributes of a [Scraper] instance. *)
Record Scraper : Type := mkScraper {
  url : PyVal;
  headers : Headers;
  timeout : Z;
  retries : Z;
  proxy : option string;
  data : option Soup;
  session : option Session
}.

Definition set_data (d : option Soup) (s : Scraper) : Scraper :=
  mkScraper (url s) (headers s) (timeout s) (retries s) (proxy s) d (session s).
Definition set_session (se : option Session) (s : Scraper) : Scraper :=
  mkScraper (url s) (headers s) (timeout s) (retries s) (proxy s) (data s) se.
Definition set_url_field (u : PyVal) (s : Scraper) : Scraper :=
  mkScraper u (headers s) (timeout s) (retries s) (proxy s) (data s) (session s).
Definition set_headers_field (h : Headers) (s : Scraper) : Scraper :=
  mkScraper (url s) h (timeout s) (retries s) (proxy s) (data s) (session s).
Definition set_proxy_field (p : option string) (s : Scraper) : Scraper :=
  mkScraper (url s) (headers s) (timeout s) (retries s) p (data s) (session s).
Definition set_timeout (t : Z) (s : Scraper) : Scraper :=
  mkScraper (url s) (headers s) t (retries s) (proxy s) (data s) (session s).
Definition set_retries (r : Z) (s : Scraper) : Scraper :=
  mkScraper (url s) (headers s) (timeout s) r (proxy s) (data s) (session s).

Definition default_user_agent : string :=
  "Mozilla/5.0 (Windows NT 10.0; Win64; x64) AppleWebKit/537.36 (KHTML, like Gecko) Chrome/58.0.3029.110 Safari/537.3".

(** The [headers] setter. *)
Definition headers_setter (h : option Headers) : Headers :=
  match h with
  | None => [("User-Agent", default_user_agent)]
  | Some h => h
  end.

(** The [proxy] setter. *)
Definition proxy_setter (p : PyVal) : Result (option string) :=
  match p with
  | PyNone => Ok None
  | PyStr s => Ok (Some s)
  | _ => Raise (ValueError "Proxy must be a string")
  end.

(** [Scraper._create_session]. *)
Definition create_session (self : Scraper) : Session :=
  let r := mkRetry (retries self) 1 [500; 502; 503; 504] false in
  mkSession [("http://", r); ("https://", r)]
            (match proxy self with
             | Some p => if truthy (PyStr p) then [("http", p); ("https", p)] else []
             | None => []
             end).

(** [Scraper.__init__]: the assignments in source order; a setter that
    raises aborts the construction. *)
Definition Scraper_init (url0 : PyVal) (timeout0 retries0 : Z) (proxy0 : PyVal)
    (headers0 : option Headers) : Result Scraper :=
  match check_url url0 with
  | Raise e => Raise e
  | Ok u =>
      let h := headers_setter headers0 in
      match proxy_setter proxy0 with
      | Raise e => Raise e
      | Ok p =>
          let self := mkScraper (PyStr u) h timeout0 retries0 p None None in
          Ok (set_session (Some (create_session self)) self)
      end
  end.

(** [Scraper(url)] with the default arguments
    [timeout=15, retries=5, proxy=None, headers=None]. *)
Definition Scraper_default (url0 : PyVal) : Result Scraper :=
  Scraper_init url0 15 5 PyNone None.

(** The network as seen by one [session.get]: an exception raised before
    any request is sent or that urllib3 does not retry ([InvalidURL] or
    [MissingSchema] while preparing the request, or anything unexpected),
    what each successive request gets, and the body of the final response.
    Redirects are not part of the model: [server] describes the requests
    to the URL itself. *)
Record HttpEnv : Type := mkHttpEnvAttempts {
  http_error : option Exn;
  http_attempts : nat -> Attempt;
  http_body : string
}.

(** A network whose requests all get a response with the status
    [server k] and no [Retry-After] header. *)
Definition mkHttpEnv (e : option Exn) (server : nat -> Z) (body : string) : HttpEnv :=
  mkHttpEnvAttempts e (plain server) body.

Record Response : Type := mkResponse {
  resp_status : Z;
  resp_content : string;
  resp_attempts : nat
}.

(** [str.lower] on one character (the model's [str] characters are ASCII). *)
Definition lower_char (c : ascii) : ascii :=
  let n := N_of_ascii c in
  if (65 <=? n)%N && (n <=? 90)%N then ascii_of_N (n + 32) else c.

Fixpoint lower (s : string) : string :=
  match s with
  | EmptyString => EmptyString
  | String c s' => String (lower_char c) (lower s')
  end.

(** [Session.get_adapter]: the first mounted adapter whose prefix starts
    the URL, both compared in lower case ([InvalidSchema], a
    [RequestException], when there is none).  requests keeps the longer
    prefix first; since no URL starts with both [http://] and [https://],
    the order of the two mounts does not matter here. *)
Definition get_adapter (sess : Session) (u : string) : Result Retry :=
  match find (fun m => startswith (lower u) (lower (fst m))) (sess_mounts sess) with
  | Some (_, r) => Ok r
  | None => Raise OtherRequestException
  end.

(** [session.get(url=..., headers=..., timeout=...)]. *)
Definition session_get (sess : Session) (u : PyVal) (env : HttpEnv) : Result Response :=
  match u with
  | PyStr su =>
      match http_error env with
      | Some e => Raise e
      | None =>
          match get_adapter sess su with
          | Raise e => Raise e
          | Ok r =>
              match urlopen_attempts r (http_attempts env) with
              | Raise e => Raise e
              | Ok rep => Ok (mkResponse (reply_status rep) (http_body env)
                                         (reply_attempts rep))
              end
          end
      end
  | _ => Raise OtherRequestException
  end.

(** [Response.raise_for_status]. *)
Definition raise_for_status (r : Response) : Result unit :=
  if (400 <=? resp_status r) && (resp_status r <? 600)
  then Raise (HTTPError (resp_status r)) else Ok tt.

Definition lift {S A} (r : Result A) : M S A :=
  match r with Ok a => ret a | Raise e => raise e end.

(** The [try] block of [Scraper.scrape]. *)
Definition scrape_try (sess : Session) (u : PyVal) (env : HttpEnv) : M Scraper unit :=
  response <- lift (session_get sess u env) ;;
  lift (raise_for_status response) ;;;
  self' <- get ;;
  put (set_data (Some (mkSoup (resp_content response))) self').

(** Its two [except] clauses, for [(ConnectionError, ReadTimeout)] and for
    [RequestException]: both only log. *)
Definition scrape_handler (e : Exn) : option (M Scraper unit) :=
  if is_request_exception e then Some (ret tt) else None.
Arguments scrape_try : simpl never.

(** [Scraper.scrape]. *)
Definition scrape (env : HttpEnv) : M Scraper unit :=
  self <- get ;;
  match session self with
  | None => raise (ValueError "Session is not set")
  | Some sess =>
      match url self with
      | PyNone => raise (ValueError "URL is not set")
      | u =>
          (match data self with
           | Some _ => put (set_data None self)
           | None => ret tt
           end) ;;;
          try_except (scrape_try sess u env) scrape_handler
      end
  end.

Section CleanedData.
(** [BeautifulSoup.prettify], a [str] for every document. *)
Variable prettify : Soup -> string.

(** [Scraper.cleaned_data]; a [BeautifulSoup] object is always truthy. *)
Definition cleaned_data (self : Scraper) : string :=
  match data self with
  | Some d => prettify d
  | None => ""
  end.
End CleanedData.

(** ** [DynamicScraper] (dynamic_scraper.py) *)

Module Dynamic.

(** The attributes of a [DynamicScraper] instance.  The URL setter only
    ever stores a [str]; [options] is the list of Chrome arguments of the
    [Options] object; [_data] is what the [data] setter stored. *)
Record DynamicScraper : Type := mkDynamicScraper {
  url : string;
  timeout : Z;
  headers : option Headers;
  rate_limit : Z;
  options : list string;
  _data : PyVal
}.

Definition set_data (d : PyVal) (s : DynamicScraper) : DynamicScraper :=
  mkDynamicScraper (url s) (timeout s) (headers s) (rate_limit s) (options s) d.

(** [DynamicScraper._default_options]. *)
Definition _default_options (hs : option Headers) : list string :=
  ["--disable-gpu"; "--no-sandbox"; "--disable-dev-shm-usage"] ++
  match hs with
  | Some ((_ :: _) as h) => map (fun hv => "--header-" ++ fst hv ++ "=" ++ snd hv) h
  | _ => []
  end.

(** [DynamicScraper.__init__]; an [Options] object is always truthy. *)
Definition DynamicScraper_init (url0 : PyVal) (timeout0 : Z)
    (options0 : option (list string)) (headers0 : option Headers) (rate_limit0 : Z)
  : Result DynamicScraper :=
  match check_url url0 with
  | Raise e => Raise e
  | Ok u =>
      let opts := match options0 with Some o => o | None => _default_options headers0 end in
      Ok (mkDynamicScraper u timeout0 headers0 rate_limit0 opts PyNone)
  end.

(** [DynamicScraper(url)] with the default arguments. *)
Definition DynamicScraper_default (url0 : PyVal) : Result DynamicScraper :=
  DynamicScraper_init url0 15 None None 1.

(** The [data] getter. *)
Definition data (s : DynamicScraper) : PyVal :=
  if truthy (_data s) then _data s else PyStr "".

(** The other public attributes, assigned by a caller. *)
Definition set_url (u : string) (s : DynamicScraper) : DynamicScraper :=
  mkDynamicScraper u (timeout s) (headers s) (rate_limit s) (options s) (_data s).
Definition set_timeout (t : Z) (s : DynamicScraper) : DynamicScraper :=
  mkDynamicScraper (url s) t (headers s) (rate_limit s) (options s) (_data s).
Definition set_headers (h : option Headers) (s : DynamicScraper) : DynamicScraper :=
  mkDynamicScraper (url s) (timeout s) h (rate_limit s) (options s) (_data s).
Definition set_rate_limit (r : Z) (s : DynamicScraper) : DynamicScraper :=
  mkDynamicScraper (url s) (timeout s) (headers s) r (options s) (_data s).
Definition set_options (o : list string) (s : DynamicScraper) : DynamicScraper :=
  mkDynamicScraper (url s) (timeout s) (headers s) (rate_limit s) o (_data s).

(** What the browser does during one [scrape]: whether [webdriver.Chrome]
    raises, whether [driver.get] raises, whether polling for the body
    raises, the second (after navigation) at which the [body] element is
    present ([None]: never), the outcome of reading [driver.page_source],
    and whether [driver.quit] raises. *)
Record BrowserEnv : Type := mkBrowserEnv {
  b_launch : option Exn;
  b_get : option Exn;
  b_wait_error : option Exn;
  b_body_at : option Z;
  b_page_source : Result string;
  b_quit : option Exn
}.

(** The effects of a call on the browser, in order. *)
Inductive Event : Type :=
| Launch
| Navigate (u : string)
| WaitBody (bound : Z)
| ReadSource
| Quit.

(** [WebDriverWait(driver, t).until(EC.presence_of_element_located((By.TAG_NAME, "body")))]:
    returns once the body is present, at the latest [t] seconds after the
    call; [TimeoutException] when it is not present by then. *)
Definition wait_body (env : BrowserEnv) (t : Z) : Result unit :=
  match b_wait_error env with
  | Some e => Raise e
  | None =>
      match b_body_at env with
      | Some a => if a <=? t then Ok tt else Raise TimeoutException
      | None => Raise TimeoutException
      end
  end.

(** [DynamicScraper._create_driver]: a [WebDriverException] is logged and
    re-raised; any other exception propagates as well. *)
Definition _create_driver (env : BrowserEnv) : Result unit :=
  match b_launch env with
  | Some e => Raise e
  | None => Ok tt
  end.

(** The body of the [try] block of [scrape]. *)
Definition scrape_try (env : BrowserEnv) (self : DynamicScraper)
  : Result unit * DynamicScraper * list Event :=
  match b_get env with
  | Some e => (Raise e, self, [Navigate (url self)])
  | None =>
      let ev := [Navigate (url self); WaitBody (timeout self)] in
      match wait_body env (timeout self) with
      | Raise e => (Raise e, self, ev)
      | Ok _ =>
          match b_page_source env with
          | Raise e => (Raise e, self, (ev ++ [ReadSource])%list)
          | Ok src => (Ok tt, set_data (PyStr src) self, (ev ++ [ReadSource])%list)
          end
      end
  end.

(** [DynamicScraper.scrape]: the [except TimeoutException] and
    [except WebDriverException] clauses log and return; the [finally]
    clause quits the driver, and an exception raised by [quit] replaces
    the pending outcome. *)
Definition scrape (env : BrowserEnv) (self : DynamicScraper)
  : Result unit * DynamicScraper * list Event :=
  if negb (truthy (PyStr (url self))) then (Raise (ValueError "URL is not set"), self, [])
  else
    match _create_driver env with
    | Raise e => (Raise e, self, [])
    | Ok _ =>
        let '(r, self', ev) := scrape_try env self in
        let handled :=
          match r with
          | Raise e => if is_webdriver_exception e then Ok tt else Raise e
          | Ok u => Ok u
          end in
        ((match b_quit env with Some e => Raise e | None => handled end),
         self', Launch :: (ev ++ [Quit])%list)
    end.

End Dynamic.

(** ** Operations a caller can apply to a constructed [Scraper] *)

(** Public attribute assignments (through the setters where the class has
    one) and calls of [scrape]; the caller catches what they raise. *)
Inductive Op : Type :=
| OpSetUrl (v : PyVal)
| OpSetHeaders (h : option Headers)
| OpSetProxy (p : PyVal)
| OpSetTimeout (t : Z)
| OpSetRetries (r : Z)
| OpSetData (d : option Soup)
| OpSetSession (se : option Session)
| OpScrape (env : HttpEnv).

Definition step (o : Op) : M Scraper unit :=
  self <- get ;;
  match o with
  | OpSetUrl v =>
      match check_url v with
      | Ok u => put (set_url_field (PyStr u) self)
      | Raise e => raise e
      end
  | OpSetHeaders h => put (set_headers_field (headers_setter h) self)
  | OpSetProxy p =>
      match proxy_setter p with
      | Ok p' => put (set_proxy_field p' self)
      | Raise e => raise e
      end
  | OpSetTimeout t => put (set_timeout t self)
  | OpSetRetries r => put (set_retries r self)
  | OpSetData d => put (set_data d self)
  | OpSetSession se => put (set_session se self)
  | OpScrape env => scrape env
  end.

Fixpoint run (ops : list Op) (s : Scraper) : Scraper :=
  match ops with
  | [] => s
  | o :: os => run os (snd (step o s))
  end.

Definition assigns_no_session (o : Op) : bool :=
  match o with OpSetSession None => false | _ => true end.

(** ** Operations a caller can apply to a constructed [DynamicScraper] *)

(** Assignments of its public attributes (through the [url], [headers] and
    [data] setters) and calls of [scrape]; the caller catches what they
    raise. *)
Inductive DynOp : Type :=
| DOpSetUrl (v : PyVal)
| DOpSetTimeout (t : Z)
| DOpSetHeaders (h : option Headers)
| DOpSetRateLimit (r : Z)
| DOpSetOptions (o : list string)
| DOpSetData (d : PyVal)
| DOpScrape (env : Dynamic.BrowserEnv).

Definition dyn_step (o : DynOp) (s : Dynamic.DynamicScraper)
  : Result unit * Dynamic.DynamicScraper :=
  match o with
  | DOpSetUrl v =>
      match check_url v with
      | Ok u => (Ok tt, Dynamic.set_url u s)
      | Raise e => (Raise e, s)
      end
  | DOpSetTimeout t => (Ok tt, Dynamic.set_timeout t s)
  | DOpSetHeaders h => (Ok tt, Dynamic.set_headers h s)
  | DOpSetRateLimit r => (Ok tt, Dynamic.set_rate_limit r s)
  | DOpSetOptions o => (Ok tt, Dynamic.set_options o s)
  | DOpSetData d => (Ok tt, Dynamic.set_data d s)
  | DOpScrape env => let '(r, s', _) := Dynamic.scrape env s in (r, s')
  end.

Fixpoint dyn_run (ops : list DynOp) (s : Dynamic.DynamicScraper) : Dynamic.DynamicScraper :=
  match ops with
  | [] => s
  | o :: os => dyn_run os (snd (dyn_step o s))
  end.

(** ** Concrete inputs *)

(** The URLs the two classes accept: the truthy [str] values that start
    with ["http"]. *)
Definition url_accepted (v : PyVal) : bool :=
  match v with
  | PyStr s => negb (String.eqb s "") && startswith s "http"
  | _ => false
  end.

Definition py_opt (p : option string) : PyVal :=
  match p with None => PyNone | Some s => PyStr s end.

Definition default_retry : Retry := mkRetry 5 1 [500; 502; 503; 504] false.

Definition example_scraper : Scraper :=
  mkScraper (PyStr "https://example.com") [("User-Agent", default_user_agent)]
            15 5 None None
            (Some (mkSession [("http://", default_retry); ("https://", default_retry)] [])).

Definition example_dyn : Dynamic.DynamicScraper :=
  Dynamic.mkDynamicScraper "https://example.com" 15 None 1
    ["--disable-gpu"; "--no-sandbox"; "--disable-dev-shm-usage"] PyNone.

(** A server answering [503] to the first [k] requests and [200] after. *)
Definition flaky_server (k : nat) : nat -> Z :=
  fun i => if (i <? k)%nat then 503 else 200.

(** A browser that launches and navigates without error, finds the body
    at second [a] (or never) and reads [src] as the page source. *)
Definition browser (a : option Z) (src : string) : Dynamic.BrowserEnv :=
  Dynamic.mkBrowserEnv None None None a (Ok src) None.

Definition ready_within (a : option Z) (t : Z) : bool :=
  match a with Some x => x <=? t | None => false end.

Definition assigns_session (o : Op) : bool :=
  match o with OpSetSession _ => true | _ => false end.

(** The retry policy [_create_session] builds from [retries]. *)
Definition session_retry (n : Z) : Retry := mkRetry n 1 [500; 502; 503; 504] false.

(** The attribute invariant the URL setter maintains. *)
Definition url_invariant (s : Scraper) : Prop :=
  exists u, url s = PyStr u /\ url_accepted (PyStr u) = true.

(** ** Theorems *)

Lemma check_url_spec (v : PyVal) :
  match check_url v with
  | Ok u => url_accepted v = true /\ v = PyStr u
  | Raise e => url_accepted v = false /\ exists m, e = ValueError m
  end.
Proof.
  unfold check_url.
  destruct v as [| b | z | s | l].
  - split; [reflexivity | eexists; reflexivity].
  - destruct b; (cbn; split; [reflexivity | eexists; reflexivity]).
  - unfold truthy; destruct (Z.eqb z 0); (cbn; split; [reflexivity | eexists; reflexivity]).
  - simpl. destruct (String.eqb s "") eqn:E; simpl.
    + split; [reflexivity | eexists; reflexivity].
    + destruct (startswith s "http"); simpl; auto.
      split; [reflexivity | eexists; reflexivity].
  - destruct l; (cbn; split; [reflexivity | eexists; reflexivity]).
Qed.

Lemma scraper_init_result v t r p h :
  match Scraper_init v t r (py_opt p) h with
  | Ok s => url_accepted v = true /\ url s = v
  | Raise e => url_accepted v = false /\ exists m, e = ValueError m
  end.
Proof.
  unfold Scraper_init. pose proof (check_url_spec v) as H.
  destruct (check_url v) as [u | e]; [| exact H].
  destruct H as [H1 H2]; subst v.
  destruct p; simpl; auto.
Qed.

Lemma dynamic_init_result v t o h rl :
  match Dynamic.DynamicScraper_init v t o h rl with
  | Ok d => url_accepted v = true /\ v = PyStr (Dynamic.url d)
  | Raise e => url_accepted v = false /\ exists m, e = ValueError m
  end.
Proof.
  unfold Dynamic.DynamicScraper_init. pose proof (check_url_spec v) as H.
  destruct (check_url v) as [u | e]; [| exact H].
  simpl. exact H.
Qed.

(** C2 (counterexample): ["httpfoo"] has no [http://] or [https://] scheme,
    yet both classes accept it at construction. *)
Lemma C2_httpfoo_accepted :
  (exists s, Scraper_default (PyStr "httpfoo") = Ok s) /\
  (exists d, Dynamic.DynamicScraper_default (PyStr "httpfoo") = Ok d).
Proof. split; eexists; reflexivity. Qed.

(** C2 (amended): for every URL value [v] (and every other argument, with
    the proxy [None] or a [str]), constructing a [Scraper] or a
    [DynamicScraper] succeeds exactly when [v] is a non-empty [str] starting
    with ["http"]; every other value makes the constructor raise
    [ValueError], before the session or driver options exist. *)
Theorem C2_url_validation (v : PyVal) (t r : Z) (p : option string)
    (h : option Headers) (t' rl : Z) (o : option (list string)) :
  ((exists s, Scraper_init v t r (py_opt p) h = Ok s) <-> url_accepted v = true) /\
  ((exists d, Dynamic.DynamicScraper_init v t' o h rl = Ok d) <-> url_accepted v = true) /\
  match Scraper_init v t r (py_opt p) h, Dynamic.DynamicScraper_init v t' o h rl with
  | Raise e1, Raise e2 => exists m1 m2, e1 = ValueError m1 /\ e2 = ValueError m2
  | Ok _, Ok _ => url_accepted v = true
  | _, _ => False
  end.
Proof.
  pose proof (scraper_init_result v t r p h) as HS.
  pose proof (dynamic_init_result v t' o h rl) as HD.
  destruct (Scraper_init v t r (py_opt p) h) as [s | e1];
    destruct (Dynamic.DynamicScraper_init v t' o h rl) as [d | e2].
  - destruct HS as [HS _]. repeat split; eauto.
  - destruct HS as [HS _]; destruct HD as [HD _]; congruence.
  - destruct HS as [HS _]; destruct HD as [HD _]; congruence.
  - destruct HS as [HS [m1 ->]]; destruct HD as [_ [m2 ->]].
    repeat split; try (intros [x Hx]; discriminate); try congruence; eauto.
Qed.

Lemma urlopen_from_raise r server left k :
  match urlopen_from r server left k with
  | Raise e => is_request_exception e = true
  | Ok _ => True
  end.
Proof.
  revert k; induction left as [| l IH]; intros k; simpl;
    destruct (server k) as [| st ra]; try reflexivity.
  - destruct (is_retry _ _ _ _); [destruct (retry_raise_on_status r) |]; reflexivity.
  - specialize (IH (S k)). destruct (urlopen_from r server l (S k)); auto.
  - destruct (is_retry _ _ _ _); [| exact I].
    destruct (retry_sleep r (S k) ra) as [t | e] eqn:E.
    + specialize (IH (S k)). destruct (urlopen_from r server l (S k)); auto.
    + destruct ra; simpl in E; try destruct (Z.eqb _ 0); inversion E; reflexivity.
Qed.

Lemma session_get_raise sess u env :
  match session_get sess u env with
  | Raise e => http_error env = Some e \/ is_request_exception e = true
  | Ok _ => True
  end.
Proof.
  unfold session_get. destruct u; auto.
  destruct (http_error env) as [e |]; auto.
  unfold get_adapter. destruct (find _ (sess_mounts sess)) as [[? r] |]; auto.
  unfold urlopen_attempts. pose proof (urlopen_from_raise r (http_attempts env)
                               (Z.to_nat (retry_total r)) 0) as H.
  destruct (urlopen_from _ _ _ _); auto.
Qed.

(** Every exception that escapes [Scraper.scrape]: one of its two guards,
    or a transport error that is not a [RequestException]. *)
(** The path of [Scraper.scrape] past its two guards: stored data is
    cleared, then the [try] block runs. *)
Lemma scrape_eq env s sess :
  session s = Some sess -> url s <> PyNone ->
  scrape env s = try_except (scrape_try sess (url s) env) scrape_handler (set_data None s).
Proof.
  intros HS HU. destruct s as [u h t r p d se]; simpl in *; subst se.
  unfold scrape, bind, get, put, ret; simpl.
  destruct u; [congruence | ..]; destruct d; reflexivity.
Qed.

Lemma scrape_raises env s :
  match fst (scrape env s) with
  | Ok _ => True
  | Raise e =>
      (session s = None /\ e = ValueError "Session is not set") \/
      (session s <> None /\ url s = PyNone /\ e = ValueError "URL is not set") \/
      (http_error env = Some e /\ is_request_exception e = false)
  end.
Proof.
  assert (Hu : forall sess u s0,
    match fst (try_except (scrape_try sess u env) scrape_handler s0) with
    | Ok _ => True
    | Raise e => http_error env = Some e /\ is_request_exception e = false
    end).
  { intros sess u s0. unfold try_except, scrape_try, scrape_handler, bind, lift.
    pose proof (session_get_raise sess u env) as H.
    destruct (session_get sess u env) as [resp | e].
    - simpl. unfold raise_for_status.
      destruct ((400 <=? resp_status resp) && (resp_status resp <? 600)); simpl; auto.
    - simpl. destruct (is_request_exception e) eqn:E; simpl; auto.
      destruct H as [H | H]; [auto | congruence]. }
  destruct (session s) as [sess |] eqn:HS.
  2: { unfold scrape, bind, get; simpl. rewrite HS. simpl. left. auto. }
  destruct (url s) eqn:HU.
  { unfold scrape, bind, get; simpl. rewrite HS, HU. simpl. right. left.
    split; [discriminate | auto]. }
  all: rewrite (scrape_eq env s sess) by (auto; rewrite HU; discriminate);
    rewrite HU;
    match goal with |- context [try_except (scrape_try ?se ?v ?en) _ ?s0] =>
      specialize (Hu se v s0); destruct (fst (try_except _ _ _)); auto end.
Qed.

Lemma scrape_try_raises env s :
  match Dynamic.scrape_try env s with
  | (Raise e, _, _) =>
      Dynamic.b_get env = Some e \/ Dynamic.b_wait_error env = Some e \/
      e = TimeoutException \/ Dynamic.b_page_source env = Raise e
  | (Ok _, _, _) => True
  end.
Proof.
  unfold Dynamic.scrape_try, Dynamic.wait_body.
  destruct (Dynamic.b_get env) as [e |]; [auto |].
  destruct (Dynamic.b_wait_error env) as [e |]; [auto |].
  destruct (Dynamic.b_body_at env) as [a |]; [destruct (a <=? Dynamic.timeout s) |];
    auto.
  destruct (Dynamic.b_page_source env); auto.
Qed.

(** Every exception that escapes [DynamicScraper.scrape]: its guard, a
    launch failure (re-raised by [_create_driver]), a failing [quit], or an
    exception of the [try] block that is not a [WebDriverException]. *)
Lemma dynamic_scrape_raises env s :
  match Dynamic.scrape env s with
  | (Ok _, _, _) => True
  | (Raise e, _, _) =>
      (Dynamic.url s = "" /\ e = ValueError "URL is not set") \/
      Dynamic.b_launch env = Some e \/
      Dynamic.b_quit env = Some e \/
      (is_webdriver_exception e = false /\
       (Dynamic.b_get env = Some e \/ Dynamic.b_wait_error env = Some e \/
        Dynamic.b_page_source env = Raise e))
  end.
Proof.
  unfold Dynamic.scrape.
  destruct (negb (truthy (PyStr (Dynamic.url s)))) eqn:Hu.
  { left. split; [| reflexivity].
    simpl in Hu. destruct (String.eqb (Dynamic.url s) "") eqn:E; [| discriminate].
    apply String.eqb_eq; exact E. }
  unfold Dynamic._create_driver.
  destruct (Dynamic.b_launch env) as [e |] eqn:HL; [right; left; reflexivity |].
  pose proof (scrape_try_raises env s) as HT.
  destruct (Dynamic.scrape_try env s) as [[r s'] ev].
  destruct (Dynamic.b_quit env) as [eq |] eqn:HQ; [auto |].
  destruct r as [u | e]; [exact I |].
  destruct (is_webdriver_exception e) eqn:W; [exact I |].
  right; right; right. split; [exact W |].
  destruct HT as [H | [H | [H | H]]]; auto. subst e; discriminate.
Qed.

(** C1 (counterexample): when launching the browser fails with a
    [WebDriverException], [DynamicScraper.scrape] re-raises it to the
    caller. *)
Lemma C1_launch_failure_propagates :
  Dynamic.DynamicScraper_default (PyStr "https://example.com") = Ok example_dyn /\
  Dynamic.scrape (Dynamic.mkBrowserEnv (Some WebDriverException) None None (Some 0)
                    (Ok "<html></html>") None) example_dyn
  = (Raise WebDriverException, example_dyn, []).
Proof. split; reflexivity. Qed.

(** C1 (amended): [Scraper.scrape] lets only its two guard [ValueError]s
    and transport errors that are not [RequestException]s escape; every
    [RequestException] (including the [HTTPError] of [raise_for_status]) is
    caught and logged.  [DynamicScraper.scrape] catches the
    [WebDriverException]s (timeouts included) of navigation, waiting and
    reading the page, but lets escape its URL guard, a browser launch
    failure (re-raised by [_create_driver]), an exception of [quit], and
    exceptions of other classes.  Neither returns a result value. *)
Theorem C1_caught_errors (henv : HttpEnv) (s : Scraper)
    (benv : Dynamic.BrowserEnv) (d : Dynamic.DynamicScraper) :
  match fst (scrape henv s) with
  | Ok r => r = tt
  | Raise e =>
      (session s = None /\ e = ValueError "Session is not set") \/
      (session s <> None /\ url s = PyNone /\ e = ValueError "URL is not set") \/
      (http_error henv = Some e /\ is_request_exception e = false)
  end /\
  match Dynamic.scrape benv d with
  | (Ok r, _, _) => r = tt
  | (Raise e, _, _) =>
      (Dynamic.url d = "" /\ e = ValueError "URL is not set") \/
      Dynamic.b_launch benv = Some e \/
      Dynamic.b_quit benv = Some e \/
      (is_webdriver_exception e = false /\
       (Dynamic.b_get benv = Some e \/ Dynamic.b_wait_error benv = Some e \/
        Dynamic.b_page_source benv = Raise e))
  end.
Proof.
  split.
  - pose proof (scrape_raises henv s) as H.
    destruct (fst (scrape henv s)) as [[] | e]; auto.
  - pose proof (dynamic_scrape_raises benv d) as H.
    destruct (Dynamic.scrape benv d) as [[[[] | e] ?] ?]; auto.
Qed.

Lemma is_retry_plain r t st : is_retry r t st false = in_forcelist r st.
Proof. unfold is_retry. destruct (in_forcelist r st); [reflexivity |]. now destruct (negb _). Qed.

Lemma urlopen_from_success r server m :
  forall j n,
  (forall i, (j <= i < j + m)%nat -> in_forcelist r (server i) = true) ->
  in_forcelist r (server (j + m)%nat) = false -> (m <= n)%nat ->
  exists sl, urlopen_from r (plain server) n j =
             Ok (mkReply (server (j + m)%nat) (S (j + m)) sl).
Proof.
  induction m as [| m IH]; intros j n Hr Hs Hm.
  - rewrite Nat.add_0_r in *.
    destruct n; simpl; rewrite is_retry_plain, Hs; eauto.
  - destruct n as [| n]; [lia |]. simpl.
    rewrite is_retry_plain, (Hr j) by lia.
    destruct (IH (S j) n) as [sl Hsl].
    + intros i Hi. apply Hr. lia.
    + replace (S j + m)%nat with (j + S m)%nat by lia. exact Hs.
    + lia.
    + rewrite Hsl. replace (S j + m)%nat with (j + S m)%nat by lia. eauto.
Qed.

Lemma urlopen_from_exhausted r server n :
  forall j,
  (forall i, (j <= i <= j + n)%nat -> in_forcelist r (server i) = true) ->
  retry_raise_on_status r = false ->
  exists sl, urlopen_from r (plain server) n j =
             Ok (mkReply (server (j + n)%nat) (S (j + n)) sl).
Proof.
  induction n as [| n IH]; intros j Hr Hno.
  - simpl. rewrite Nat.add_0_r, is_retry_plain, (Hr j) by lia. rewrite Hno. eauto.
  - simpl. rewrite is_retry_plain, (Hr j) by lia.
    destruct (IH (S j)) as [sl Hsl]; [intros i Hi; apply Hr; lia | exact Hno |].
    rewrite Hsl. replace (S j + n)%nat with (j + S n)%nat by lia. eauto.
Qed.

(** Against a server without [Retry-After] headers nor connection errors,
    [urlopen] with [raise_on_status=False] always returns a response. *)
Lemma urlopen_from_plain_ok r server (Hno : retry_raise_on_status r = false) left :
  forall k, exists rep, urlopen_from r (plain server) left k = Ok rep.
Proof.
  induction left as [| l IH]; intros k; simpl; rewrite is_retry_plain.
  - destruct (in_forcelist r (server k)); [rewrite Hno |]; eauto.
  - destruct (in_forcelist r (server k)); [| eauto].
    destruct (IH (S k)) as [rep ->]. eauto.
Qed.

Lemma lower_prefix p u : startswith u p = true -> startswith (lower u) (lower p) = true.
Proof.
  unfold startswith. revert u.
  induction p as [| c p IH]; intros u H; [simpl; destruct (lower u); reflexivity |].
  destruct u as [| d u]; [discriminate |]. simpl in *.
  destruct (ascii_dec c d) as [-> | _]; [| discriminate].
  destruct (ascii_dec (lower_char d) (lower_char d)) as [_ | n]; [| congruence].
  apply IH, H.
Qed.

Lemma get_adapter_two u r1 r2 ps :
  startswith (lower u) "http://" || startswith (lower u) "https://" = true ->
  get_adapter (mkSession [("http://", r1); ("https://", r2)] ps) u =
  Ok (if startswith (lower u) "http://" then r1 else r2).
Proof.
  intros H. unfold get_adapter. cbn [sess_mounts find fst].
  change (lower "http://") with "http://".
  change (lower "https://") with "https://".
  destruct (startswith (lower u) "http://"); [reflexivity |].
  simpl in H. rewrite H. reflexivity.
Qed.

Lemma lower_mounted u :
  startswith u "http://" || startswith u "https://" = true ->
  startswith (lower u) "http://" || startswith (lower u) "https://" = true.
Proof.
  intros H. apply orb_prop in H as [H | H].
  - apply lower_prefix in H. change (lower "http://") with "http://" in H.
    rewrite H. reflexivity.
  - apply lower_prefix in H. change (lower "https://") with "https://" in H.
    rewrite H, orb_true_r. reflexivity.
Qed.

Lemma Scraper_init_shape u t n p h s :
  Scraper_init (PyStr u) t n (py_opt p) h = Ok s ->
  s = mkScraper (PyStr u) (headers_setter h) t n p None
        (Some (mkSession [("http://", session_retry n); ("https://", session_retry n)]
                 (match p with
                  | Some x => if truthy (PyStr x) then [("http", x); ("https", x)] else []
                  | None => []
                  end))).
Proof.
  unfold Scraper_init.
  destruct (check_url (PyStr u)) as [u' | e] eqn:E; [| discriminate].
  unfold check_url in E. simpl in E.
  destruct (negb (String.eqb u "")); [| discriminate].
  destruct (negb (startswith u "http")); inversion E; subst.
  destruct p; simpl; intros H; inversion H; reflexivity.
Qed.

Lemma get_adapter_session u r ps :
  startswith u "http://" || startswith u "https://" = true ->
  get_adapter (mkSession [("http://", r); ("https://", r)] ps) u = Ok r.
Proof.
  intros H. rewrite get_adapter_two by (apply lower_mounted; exact H).
  destruct (startswith (lower u) "http://"); reflexivity.
Qed.

(** One [scrape] of a constructed [Scraper] whose URL has a mounted
    prefix, when nothing fails before the first request: the outcome of
    [urlopen] decides what is stored; its exceptions are all caught. *)
Lemma scrape_init_attempts (u body : string) (t n : Z) (p : option string)
    (h : option Headers) (a : nat -> Attempt) (s : Scraper)
    (Hs : Scraper_init (PyStr u) t n (py_opt p) h = Ok s)
    (Hu : startswith u "http://" || startswith u "https://" = true) :
  scrape (mkHttpEnvAttempts None a body) s =
  match urlopen_attempts (session_retry n) a with
  | Ok rep =>
      (Ok tt, set_data (if (400 <=? reply_status rep) && (reply_status rep <? 600)
                        then None else Some (mkSoup body)) s)
  | Raise _ => (Ok tt, s)
  end.
Proof.
  pose proof (Scraper_init_shape u t n p h s Hs) as ->.
  erewrite scrape_eq; [| reflexivity | discriminate].
  unfold try_except, scrape_try, scrape_handler, bind, lift, session_get.
  cbn [url http_error http_attempts http_body].
  rewrite get_adapter_session by exact Hu.
  pose proof (urlopen_from_raise (session_retry n) a
                (Z.to_nat (retry_total (session_retry n))) 0) as HR.
  change (urlopen_from (session_retry n) a (Z.to_nat (retry_total (session_retry n))) 0)
    with (urlopen_attempts (session_retry n) a) in HR.
  destruct (urlopen_attempts (session_retry n) a) as [rep | e].
  - simpl. unfold raise_for_status; simpl.
    destruct ((400 <=? reply_status rep) && (reply_status rep <? 600)); reflexivity.
  - simpl. rewrite HR. reflexivity.
Qed.

(** The same for a server that answers every request with a status and
    no [Retry-After] header: [urlopen] returns a response. *)
Lemma scrape_init_outcome (u body : string) (t n : Z) (p : option string)
    (h : option Headers) (server : nat -> Z) (s : Scraper)
    (Hs : Scraper_init (PyStr u) t n (py_opt p) h = Ok s)
    (Hu : startswith u "http://" || startswith u "https://" = true) :
  exists rep, urlopen (session_retry n) server = Ok rep /\
  scrape (mkHttpEnv None server body) s =
  (Ok tt, set_data (if (400 <=? reply_status rep) && (reply_status rep <? 600)
                    then None else Some (mkSoup body)) s).
Proof.
  destruct (urlopen_from_plain_ok (session_retry n) server eq_refl
              (Z.to_nat (retry_total (session_retry n))) 0) as [rep Hrep].
  exists rep. split; [exact Hrep |].
  unfold mkHttpEnv. rewrite (scrape_init_attempts u body t n p h _ s Hs Hu).
  unfold urlopen_attempts. rewrite Hrep. reflexivity.
Qed.

Example urlopen_three_503 :
  urlopen default_retry (flaky_server 3) = Ok (mkReply 200 4 [0; 2; 4]).
Proof. reflexivity. Qed.

(** C3 (counterexample): with the default [retries=5] a server that answers
    [503] five times and then [200] gets six requests, and the call stores
    the page: the budget is five retries after the first request, not five
    attempts in all. *)
Lemma C3_six_requests :
  Scraper_default (PyStr "https://example.com") = Ok example_scraper /\
  urlopen default_retry (flaky_server 5) = Ok (mkReply 200 6 [0; 2; 4; 8; 16]) /\
  scrape (mkHttpEnv None (flaky_server 5) "<html></html>") example_scraper
  = (Ok tt, set_data (Some (mkSoup "<html></html>")) example_scraper).
Proof. repeat split; reflexivity. Qed.

(** C3 (amended): a constructed [Scraper] mounts on [http://] and
    [https://] a [Retry] with [total=retries] (that many retries after the
    first request; [5] by default), [backoff_factor=1],
    [status_forcelist=[500, 502, 503, 504]] and [raise_on_status=False].
    Consequently [k <= retries] answers [503] followed by [200] take
    [k + 1] requests and the page is stored; a [404] is requested once,
    whatever its [Retry-After] header, and nothing is stored; [503] on all
    [retries + 1] requests stores nothing either (its [HTTPError] is
    caught). *)
Theorem C3_retry_policy (u body : string) (t n : Z) (p : option string)
    (h : option Headers) (k : nat) (s : Scraper)
    (Hs : Scraper_init (PyStr u) t n (py_opt p) h = Ok s)
    (Hu : startswith u "http://" || startswith u "https://" = true)
    (Hk : (k <= Z.to_nat n)%nat) :
  option_map sess_mounts (session s) =
    Some [("http://", mkRetry n 1 [500; 502; 503; 504] false);
          ("https://", mkRetry n 1 [500; 502; 503; 504] false)] /\
  (forall s', Scraper_default (PyStr u) = Ok s' ->
     option_map sess_mounts (session s') =
     Some [("http://", mkRetry 5 1 [500; 502; 503; 504] false);
           ("https://", mkRetry 5 1 [500; 502; 503; 504] false)]) /\
  (exists sl, urlopen (session_retry n) (flaky_server k) = Ok (mkReply 200 (S k) sl)) /\
  scrape (mkHttpEnv None (flaky_server k) body) s = (Ok tt, set_data (Some (mkSoup body)) s) /\
  (forall ra, urlopen_attempts (session_retry n) (fun _ => AttemptResponse 404 ra)
              = Ok (mkReply 404 1 [])) /\
  (forall ra, scrape (mkHttpEnvAttempts None (fun _ => AttemptResponse 404 ra) body) s
              = (Ok tt, s)) /\
  (exists sl, urlopen (session_retry n) (fun _ => 503) =
              Ok (mkReply 503 (S (Z.to_nat n)) sl)) /\
  scrape (mkHttpEnv None (fun _ => 503) body) s = (Ok tt, s).
Proof.
  assert (H404 : forall ra, urlopen_attempts (session_retry n) (fun _ => AttemptResponse 404 ra)
                            = Ok (mkReply 404 1 [])).
  { intros ra. unfold urlopen_attempts.
    destruct (Z.to_nat (retry_total (session_retry n)));
      simpl; unfold is_retry; simpl; rewrite andb_false_r; reflexivity. }
  assert (Hflaky : exists sl,
            urlopen (session_retry n) (flaky_server k) = Ok (mkReply 200 (S k) sl)).
  { unfold urlopen, urlopen_attempts. simpl (retry_total _).
    destruct (urlopen_from_success (session_retry n) (flaky_server k) k 0 (Z.to_nat n))
      as [sl Hsl].
    - intros i Hi. unfold flaky_server.
      replace (i <? k)%nat with true by (symmetry; apply Nat.ltb_lt; lia).
      reflexivity.
    - unfold flaky_server. simpl.
      replace (k <? k)%nat with false by (symmetry; apply Nat.ltb_ge; lia).
      reflexivity.
    - exact Hk.
    - exists sl. rewrite Hsl. unfold flaky_server. simpl.
      replace (k <? k)%nat with false by (symmetry; apply Nat.ltb_ge; lia).
      reflexivity. }
  assert (H503 : exists sl, urlopen (session_retry n) (fun _ => 503) =
                            Ok (mkReply 503 (S (Z.to_nat n)) sl)).
  { unfold urlopen, urlopen_attempts. simpl (retry_total _).
    destruct (urlopen_from_exhausted (session_retry n) (fun _ => 503) (Z.to_nat n) 0)
      as [sl Hsl]; [intros; reflexivity | reflexivity |].
    exists sl. exact Hsl. }
  pose proof (Scraper_init_shape u t n p h s Hs) as Hshape.
  split; [subst s; reflexivity |].
  split.
  { intros s' Hs'. rewrite (Scraper_init_shape u 15 5 None None s' Hs'). reflexivity. }
  split; [exact Hflaky |].
  split.
  { destruct (scrape_init_outcome u body t n p h (flaky_server k) s Hs Hu) as [rep [Hrep ->]].
    destruct Hflaky as [sl Hsl]. rewrite Hsl in Hrep. inversion Hrep; subst. reflexivity. }
  split; [exact H404 |].
  split.
  { intros ra. rewrite (scrape_init_attempts u body t n p h _ s Hs Hu), H404.
    subst s. reflexivity. }
  split; [exact H503 |].
  destruct (scrape_init_outcome u body t n p h (fun _ => 503) s Hs Hu) as [rep [Hrep ->]].
  destruct H503 as [sl Hsl]. rewrite Hsl in Hrep. inversion Hrep; subst. reflexivity.
Qed.

Lemma C3_retry_policy_witness :
  Scraper_init (PyStr "https://example.com") 15 5 (py_opt None) None = Ok example_scraper /\
  startswith "https://example.com" "http://" || startswith "https://example.com" "https://" = true /\
  (3 <= Z.to_nat 5)%nat /\
  option_map sess_mounts (session example_scraper) =
    Some [("http://", mkRetry 5 1 [500; 502; 503; 504] false);
          ("https://", mkRetry 5 1 [500; 502; 503; 504] false)].
Proof.
  refine (conj eq_refl (conj eq_refl (conj (le_S _ _ (le_S _ _ (le_n 3))) _))).
  exact (proj1 (C3_retry_policy "https://example.com" "<html></html>" 15 5 None None 3
                  example_scraper eq_refl eq_refl (le_S _ _ (le_S _ _ (le_n 3))))).
Defined.

Lemma scrape_try_no_quit env s :
  let '(_, _, ev) := Dynamic.scrape_try env s in ~ In Dynamic.Quit ev.
Proof.
  unfold Dynamic.scrape_try.
  destruct (Dynamic.b_get env); [simpl; intuition discriminate |].
  destruct (Dynamic.wait_body env _); [destruct (Dynamic.b_page_source env) |];
    simpl; intuition discriminate.
Qed.

(** C4: whenever [DynamicScraper.scrape] gets past its URL guard and the
    driver is created, the events of the call are the launch, the events
    of the [try] block (none of them a quit), and one final [quit] -- on
    every outcome of the [try] block, whatever it raises, and also when
    [quit] itself raises.  Otherwise no browser was launched. *)
Theorem C4_quit_on_every_path (env : Dynamic.BrowserEnv) (s : Dynamic.DynamicScraper) :
  let '(_, _, ev) := Dynamic.scrape env s in
  (ev = [] /\ (Dynamic.url s = "" \/ exists e, Dynamic.b_launch env = Some e)) \/
  (Dynamic.b_launch env = None /\
   exists mid, ev = Dynamic.Launch :: (mid ++ [Dynamic.Quit])%list /\ ~ In Dynamic.Quit mid).
Proof.
  unfold Dynamic.scrape.
  destruct (negb (truthy (PyStr (Dynamic.url s)))) eqn:Hu.
  { left. split; [reflexivity | left].
    simpl in Hu. destruct (String.eqb (Dynamic.url s) "") eqn:E; [| discriminate].
    apply String.eqb_eq; exact E. }
  unfold Dynamic._create_driver.
  destruct (Dynamic.b_launch env) as [e |] eqn:HL.
  { left. split; [reflexivity | right; eauto]. }
  pose proof (scrape_try_no_quit env s) as HT.
  destruct (Dynamic.scrape_try env s) as [[r s'] ev].
  right. split; [reflexivity |]. exists ev. split; [reflexivity | exact HT].
Qed.

Lemma dyn_url_nonempty s :
  Dynamic.url s <> "" -> negb (truthy (PyStr (Dynamic.url s))) = false.
Proof.
  intros H. simpl. destruct (String.eqb (Dynamic.url s) "") eqn:E; [| reflexivity].
  apply String.eqb_eq in E. contradiction.
Qed.

(** C5 (counterexample): when the body never appears, [scrape] catches the
    [TimeoutException] and returns normally, leaving the object as it was:
    no failure value, no error kind, is produced. *)
Lemma C5_timeout_returns_normally :
  Dynamic.scrape (browser None "<html></html>") example_dyn =
  (Ok tt, example_dyn,
   [Dynamic.Launch; Dynamic.Navigate "https://example.com"; Dynamic.WaitBody 15;
    Dynamic.Quit]).
Proof. reflexivity. Qed.

(** C5 (amended): after navigating, [scrape] waits for the [body] element
    with the configured [timeout] as the bound; when the body is present
    within it the page source is read and stored in [_data]; when it is
    not, the [TimeoutException] is caught and logged, the page source is
    not read, [_data] is not assigned, and the call returns [None]. *)
Theorem C5_wait_then_store (s : Dynamic.DynamicScraper) (a : option Z) (src : string)
    (Hu : Dynamic.url s <> "") :
  Dynamic.scrape (browser a src) s =
  if ready_within a (Dynamic.timeout s)
  then (Ok tt, Dynamic.set_data (PyStr src) s,
        [Dynamic.Launch; Dynamic.Navigate (Dynamic.url s);
         Dynamic.WaitBody (Dynamic.timeout s); Dynamic.ReadSource; Dynamic.Quit])
  else (Ok tt, s,
        [Dynamic.Launch; Dynamic.Navigate (Dynamic.url s);
         Dynamic.WaitBody (Dynamic.timeout s); Dynamic.Quit]).
Proof.
  unfold Dynamic.scrape. rewrite (dyn_url_nonempty s Hu).
  unfold Dynamic.scrape_try, Dynamic.wait_body, browser, ready_within; simpl.
  destruct a as [t |]; [destruct (t <=? Dynamic.timeout s) |]; reflexivity.
Qed.

Lemma C5_wait_then_store_witness :
  Dynamic.url example_dyn <> "" /\
  Dynamic.scrape (browser (Some 3) "<html><body></body></html>") example_dyn =
  (Ok tt, Dynamic.set_data (PyStr "<html><body></body></html>") example_dyn,
   [Dynamic.Launch; Dynamic.Navigate "https://example.com"; Dynamic.WaitBody 15;
    Dynamic.ReadSource; Dynamic.Quit]).
Proof.
  split; [discriminate |].
  exact (C5_wait_then_store example_dyn (Some 3) "<html><body></body></html>"
           (fun H => ltac:(discriminate H))).
Defined.

(** C6 (the defect): [Scraper.scrape] clears the data of a previous call
    before requesting, but [DynamicScraper.scrape] does not: after a
    successful call and a call whose wait times out, the [data] getter
    still returns the markup of the first call. *)
Theorem C6_dynamic_keeps_stale_markup :
  snd (scrape (mkHttpEnv None (fun _ => 404) "") (set_data (Some (mkSoup "<html>A</html>")) example_scraper))
  = example_scraper /\
  (let '(_, s1, _) := Dynamic.scrape (browser (Some 1) "<html>A</html>") example_dyn in
   let '(r2, s2, _) := Dynamic.scrape (browser None "<html>B</html>") s1 in
   r2 = Ok tt /\ Dynamic.data s2 = PyStr "<html>A</html>").
Proof. split; [reflexivity | split; reflexivity]. Qed.

Lemma set_data_same s : set_data (data s) s = s.
Proof. destruct s; reflexivity. Qed.

Lemma set_data_twice d1 d2 s : set_data d2 (set_data d1 s) = set_data d2 s.
Proof. destruct s; reflexivity. Qed.

(** [Scraper.scrape] assigns nothing but [data]. *)
Lemma scrape_frame env s : exists d, snd (scrape env s) = set_data d s.
Proof.
  destruct (session s) as [sess |] eqn:HS.
  2: { exists (data s). rewrite set_data_same.
       unfold scrape, bind, get; simpl. rewrite HS. reflexivity. }
  destruct (url s) eqn:HU.
  { exists (data s). rewrite set_data_same.
    unfold scrape, bind, get; simpl. rewrite HS, HU. reflexivity. }
  all: rewrite (scrape_eq env s sess HS) by (rewrite HU; discriminate);
    unfold try_except, scrape_try, bind, lift;
    destruct (session_get sess (url s) env) as [resp | e];
    [ simpl; destruct (raise_for_status resp);
      [ simpl; rewrite set_data_twice; eexists; reflexivity
      | simpl; unfold scrape_handler; destruct (is_request_exception _);
        simpl; eexists; reflexivity ]
    | simpl; unfold scrape_handler; destruct (is_request_exception e);
      simpl; eexists; reflexivity ].
Qed.

Lemma scrape_keeps_session env s : session (snd (scrape env s)) = session s.
Proof. destruct (scrape_frame env s) as [d ->]. destruct s; reflexivity. Qed.

Lemma scrape_keeps_url env s : url (snd (scrape env s)) = url s.
Proof. destruct (scrape_frame env s) as [d ->]. destruct s; reflexivity. Qed.

(** C7 (counterexample): constructing a [Scraper] already creates its
    session; nothing is left to be created on the first [scrape]. *)
Lemma C7_session_created_eagerly :
  Scraper_default (PyStr "https://example.com") = Ok example_scraper /\
  session example_scraper =
    Some (mkSession [("http://", default_retry); ("https://", default_retry)] []).
Proof. split; reflexivity. Qed.

Lemma step_session_fixed o s :
  assigns_session o = false -> session (snd (step o s)) = session s.
Proof.
  intros Ho. destruct o as [v | h | p | t | r | d | se | env]; try discriminate Ho.
  - change (snd (step (OpSetUrl v) s)) with
      (snd (match check_url v with
            | Ok u => put (set_url_field (PyStr u) s)
            | Raise e => raise e
            end s)).
    destruct (check_url v); simpl; [destruct s |]; reflexivity.
  - destruct s; reflexivity.
  - change (snd (step (OpSetProxy p) s)) with
      (snd (match proxy_setter p with
            | Ok p' => put (set_proxy_field p' s)
            | Raise e => raise e
            end s)).
    destruct (proxy_setter p); simpl; [destruct s |]; reflexivity.
  - destruct s; reflexivity.
  - destruct s; reflexivity.
  - destruct s; reflexivity.
  - change (snd (step (OpScrape env) s)) with (snd (scrape env s)).
    apply scrape_keeps_session.
Qed.

Lemma run_session_fixed ops :
  forall s, forallb (fun o => negb (assigns_session o)) ops = true ->
  session (run ops s) = session s.
Proof.
  induction ops as [| o os IH]; intros s Hops; simpl in *; [reflexivity |].
  apply andb_prop in Hops as [Ho Hos]. apply negb_true_iff in Ho.
  rewrite IH by exact Hos. apply step_session_fixed, Ho.
Qed.

(** C7 (amended): [Scraper.__init__] creates the session eagerly, from the
    constructed object's [retries] and [proxy].  [scrape] never creates or
    replaces a session: it keeps the one it finds, and raises when there is
    none.  So, unless the caller assigns the public [session] attribute,
    every later call, after any setters, assignments and earlier [scrape]
    calls, uses the session made by the constructor. *)
Theorem C7_session_created_in_constructor (v : PyVal) (t r : Z) (p : PyVal)
    (h : option Headers) :
  match Scraper_init v t r p h with
  | Ok s =>
      session s = Some (create_session s) /\
      forall ops, forallb (fun o => negb (assigns_session o)) ops = true ->
        session (run ops s) = Some (create_session s)
  | Raise _ => True
  end /\
  (forall env s, session (snd (scrape env s)) = session s) /\
  (forall env s, session s = None -> scrape env s = (Raise (ValueError "Session is not set"), s)).
Proof.
  split.
  - unfold Scraper_init.
    destruct (check_url v) as [u |]; [| exact I].
    destruct (proxy_setter p) as [p' |]; [| exact I].
    split; [reflexivity |].
    intros ops Hops. rewrite run_session_fixed by exact Hops. reflexivity.
  - split; [exact scrape_keeps_session |].
    intros env s Hs. unfold scrape, bind, get. simpl. rewrite Hs. reflexivity.
Qed.

(** C8: the [headers] of a constructed [Scraper] are the fixed default
    [User-Agent] mapping when the caller passes [None], and the caller's
    mapping, as given, otherwise. *)
Theorem C8_default_user_agent (v : PyVal) (t r : Z) (p : PyVal) (h : option Headers) :
  match Scraper_init v t r p h with
  | Ok s =>
      headers s =
      match h with
      | None => [("User-Agent",
                  "Mozilla/5.0 (Windows NT 10.0; Win64; x64) AppleWebKit/537.36 (KHTML, like Gecko) Chrome/58.0.3029.110 Safari/537.3")]
      | Some h' => h'
      end
  | Raise _ => True
  end.
Proof.
  unfold Scraper_init.
  destruct (check_url v) as [u |]; [| exact I].
  destruct (proxy_setter p) as [p' |]; [| exact I].
  destruct h; reflexivity.
Qed.

Lemma step_url_invariant o s : url_invariant s -> url_invariant (snd (step o s)).
Proof.
  intros Hinv. destruct o as [v | h | p | t | r | d | se | env].
  - change (snd (step (OpSetUrl v) s)) with
      (snd (match check_url v with
            | Ok u => put (set_url_field (PyStr u) s)
            | Raise e => raise e
            end s)).
    pose proof (check_url_spec v) as H.
    destruct (check_url v) as [u | e]; simpl; [| exact Hinv].
    destruct H as [H1 H2]; subst v. exists u. split; [reflexivity | exact H1].
  - exact Hinv.
  - change (snd (step (OpSetProxy p) s)) with
      (snd (match proxy_setter p with
            | Ok p' => put (set_proxy_field p' s)
            | Raise e => raise e
            end s)).
    destruct (proxy_setter p); exact Hinv.
  - exact Hinv.
  - exact Hinv.
  - exact Hinv.
  - exact Hinv.
  - change (snd (step (OpScrape env) s)) with (snd (scrape env s)).
    unfold url_invariant. rewrite scrape_keeps_url. exact Hinv.
Qed.

Lemma step_keeps_session o s :
  assigns_no_session o = true -> session s <> None -> session (snd (step o s)) <> None.
Proof.
  intros Ho Hs. destruct o as [v | h | p | t | r | d | [se |] | env];
    try discriminate Ho.
  - change (snd (step (OpSetUrl v) s)) with
      (snd (match check_url v with
            | Ok u => put (set_url_field (PyStr u) s)
            | Raise e => raise e
            end s)).
    destruct (check_url v); simpl; [destruct s |]; exact Hs.
  - destruct s; exact Hs.
  - change (snd (step (OpSetProxy p) s)) with
      (snd (match proxy_setter p with
            | Ok p' => put (set_proxy_field p' s)
            | Raise e => raise e
            end s)).
    destruct (proxy_setter p); simpl; [destruct s |]; exact Hs.
  - destruct s; exact Hs.
  - destruct s; exact Hs.
  - destruct s; exact Hs.
  - simpl. discriminate.
  - change (snd (step (OpScrape env) s)) with (snd (scrape env s)).
    rewrite scrape_keeps_session. exact Hs.
Qed.

Lemma run_url_invariant ops : forall s, url_invariant s -> url_invariant (run ops s).
Proof.
  induction ops as [| o os IH]; intros s H; simpl; [exact H |].
  apply IH, step_url_invariant, H.
Qed.

Lemma run_keeps_session ops :
  forall s, forallb assigns_no_session ops = true -> session s <> None ->
  session (run ops s) <> None.
Proof.
  induction ops as [| o os IH]; intros s Ho Hs; simpl in *; [exact Hs |].
  apply andb_prop in Ho as [Ho Hos].
  apply IH; [exact Hos | apply step_keeps_session; assumption].
Qed.

(** C9 (counterexample): [session] is a public attribute; after a caller
    assigns [None] to it, [scrape] raises its ["Session is not set"]
    [ValueError]. *)
Lemma C9_session_guard_reachable :
  fst (scrape (mkHttpEnv None (fun _ => 200) "<html></html>")
              (run [OpSetSession None] example_scraper))
  = Raise (ValueError "Session is not set").
Proof. reflexivity. Qed.

(** C9 (amended): on a constructed [Scraper], whatever the caller does
    through the setters, attribute assignments and [scrape] calls, [url]
    stays a non-empty [str] starting with ["http"], so the ["URL is not
    set"] guard of [scrape] is never taken; [session] stays set, and the
    ["Session is not set"] guard is never taken, as long as the caller
    does not assign [None] to the public [session] attribute. *)
Theorem C9_guards (v : PyVal) (t r : Z) (p : PyVal) (h : option Headers)
    (s0 : Scraper) (ops : list Op) (Hinit : Scraper_init v t r p h = Ok s0) :
  url_invariant (run ops s0) /\
  url (run ops s0) <> PyNone /\
  (forallb assigns_no_session ops = true -> session (run ops s0) <> None).
Proof.
  assert (H0 : url_invariant s0 /\ session s0 <> None).
  { revert Hinit. unfold Scraper_init. pose proof (check_url_spec v) as Hc.
    destruct (check_url v) as [u |]; [| discriminate].
    destruct (proxy_setter p); [| discriminate].
    intros Hs; inversion Hs; subst; simpl.
    destruct Hc as [Hc ->]. split; [exists u; auto | discriminate]. }
  destruct H0 as [Hu Hs].
  pose proof (run_url_invariant ops s0 Hu) as [u [Hu1 Hu2]].
  split; [exists u; auto |]. split; [rewrite Hu1; discriminate |].
  intros Ho. apply run_keeps_session; assumption.
Qed.

Lemma C9_guards_witness :
  Scraper_init (PyStr "https://example.com") 15 5 PyNone None = Ok example_scraper /\
  url (run [OpSetUrl (PyStr "http://example.org"); OpSetUrl PyNone;
            OpScrape (mkHttpEnv None (fun _ => 404) "")] example_scraper) <> PyNone.
Proof.
  split; [reflexivity |].
  apply (C9_guards (PyStr "https://example.com") 15 5 PyNone None example_scraper
           [OpSetUrl (PyStr "http://example.org"); OpSetUrl PyNone;
            OpScrape (mkHttpEnv None (fun _ => 404) "")] eq_refl).
Defined.

(** C10: [Scraper.cleaned_data] is [""] when no data is stored and the
    prettified document otherwise; [DynamicScraper.data] is [""] when
    [_data] is unset and is never [None]. *)
Theorem C10_accessors_total (prettify : Soup -> string) (s : Scraper)
    (d : Dynamic.DynamicScraper) :
  cleaned_data prettify (set_data None s) = "" /\
  (forall x, cleaned_data prettify (set_data (Some x) s) = prettify x) /\
  Dynamic.data (Dynamic.set_data PyNone d) = PyStr "" /\
  Dynamic.data d <> PyNone.
Proof.
  repeat split.
  unfold Dynamic.data. destruct (truthy (Dynamic._data d)) eqn:E; [| discriminate].
  destruct (Dynamic._data d); simpl in E; discriminate.
Qed.

(** ** Further properties of the two classes *)

(** What one [urlopen] does against any server, with
    [raise_on_status=False]: which requests were retried, how long it slept
    between them, and why it raised when it did. *)
Lemma urlopen_from_spec r a (Hno : retry_raise_on_status r = false) left :
  forall k,
  match urlopen_from r a left k with
  | Ok rep =>
      (S k <= reply_attempts rep <= S k + left)%nat /\
      (exists ra, a (pred (reply_attempts rep)) = AttemptResponse (reply_status rep) ra) /\
      (forall i, (k <= i < pred (reply_attempts rep))%nat ->
       match a i with
         | AttemptError => True
         | AttemptResponse st ra =>
             is_retry r (retry_total r - Z.of_nat i) st (has_retry_after ra) = true
         end) /\
      ((match a (pred (reply_attempts rep)) with
        | AttemptError => True
        | AttemptResponse st ra =>
            is_retry r (retry_total r - Z.of_nat (pred (reply_attempts rep))) st
                     (has_retry_after ra) = true
        end) -> reply_attempts rep = (S k + left)%nat) /\
      Forall2 (fun i sl => match a i with
                           | AttemptError => sl = backoff_time r (S i)
                           | AttemptResponse _ ra => retry_sleep r (S i) ra = Ok sl
                           end)
              (seq k (pred (reply_attempts rep) - k)) (reply_sleeps rep)
  | Raise e =>
      (e = ConnectionError /\ a (k + left)%nat = AttemptError /\
       forall i, (k <= i < k + left)%nat -> match a i with
         | AttemptError => True
         | AttemptResponse st ra =>
             is_retry r (retry_total r - Z.of_nat i) st (has_retry_after ra) = true
         end) \/
      (e = OtherRequestException /\
       exists i st ra, (k <= i < k + left)%nat /\ a i = AttemptResponse st ra /\
         is_retry r (retry_total r - Z.of_nat i) st (has_retry_after ra) = true /\
         forall z, retry_sleep r (S i) ra <> Ok z)
  end.
Proof.
  induction left as [| l IH]; intros k.
  - simpl. destruct (a k) as [| st ra] eqn:Ak.
    + left. rewrite Nat.add_0_r. split; [reflexivity | split; [exact Ak | intros i Hi; lia]].
    + destruct (is_retry _ _ _ _) eqn:R; [rewrite Hno |]; simpl;
        (split; [lia |]); (split; [exists ra; exact Ak |]);
        (split; [intros i Hi; lia |]); (split; [intros _; lia |]);
        rewrite Nat.sub_diag; constructor.
  - simpl. destruct (a k) as [| st ra] eqn:Ak.
    + specialize (IH (S k)). destruct (urlopen_from r a l (S k)) as [rep | e].
      * destruct IH as [Hb [Hl [Hall [Hfin Hsl]]]]. simpl.
        split; [lia |]. split; [exact Hl |].
        split.
        { intros i Hi. destruct (Nat.eq_dec i k) as [-> | Hne];
            [rewrite Ak; exact I | apply Hall; lia]. }
        split; [intros H; rewrite (Hfin H); lia |].
        replace (pred (reply_attempts rep) - k)%nat
          with (S (pred (reply_attempts rep) - S k)) by lia.
        simpl. constructor; [rewrite Ak; reflexivity | exact Hsl].
      * destruct IH as [[-> [Hl Hall]] | [-> [i [st' [ra' [Hi [Hai [Hr Hs]]]]]]]].
        -- left. split; [reflexivity |].
           replace (k + S l)%nat with (S k + l)%nat by lia. split; [exact Hl |].
           intros i Hi. destruct (Nat.eq_dec i k) as [-> | Hne];
             [rewrite Ak; exact I | apply Hall; lia].
        -- right. split; [reflexivity |]. exists i, st', ra'.
           split; [lia | auto].
    + destruct (is_retry _ _ _ _) eqn:R.
      * destruct (retry_sleep r (S k) ra) as [t | e] eqn:E.
        -- specialize (IH (S k)). destruct (urlopen_from r a l (S k)) as [rep | e].
           ++ destruct IH as [Hb [Hl [Hall [Hfin Hsl]]]]. simpl.
              split; [lia |]. split; [exact Hl |].
              split.
              { intros i Hi. destruct (Nat.eq_dec i k) as [-> | Hne];
                  [rewrite Ak; exact R | apply Hall; lia]. }
              split; [intros H; rewrite (Hfin H); lia |].
              replace (pred (reply_attempts rep) - k)%nat
                with (S (pred (reply_attempts rep) - S k)) by lia.
              simpl. constructor; [rewrite Ak; exact E | exact Hsl].
           ++ destruct IH as [[-> [Hl Hall]] | [-> [i [st' [ra' [Hi [Hai [Hr Hs]]]]]]]].
              ** left. split; [reflexivity |].
                 replace (k + S l)%nat with (S k + l)%nat by lia. split; [exact Hl |].
                 intros i Hi. destruct (Nat.eq_dec i k) as [-> | Hne];
                   [rewrite Ak; exact R | apply Hall; lia].
              ** right. split; [reflexivity |]. exists i, st', ra'.
                 split; [lia | auto].
        -- right. split.
           { destruct ra; simpl in E; try destruct (Z.eqb _ 0); congruence. }
           exists k, st, ra. split; [lia |]. split; [exact Ak |]. split; [exact R |].
           intros z. congruence.
      * simpl. split; [lia |]. split; [exists ra; exact Ak |].
        split; [intros i Hi; lia |].
        split; [rewrite Ak; intros H; rewrite R in H; discriminate |].
        rewrite Nat.sub_diag. constructor.
Qed.

Lemma Forall2_seq_nth (P : nat -> Z -> Prop) m :
  forall k l, Forall2 P (seq k m) l -> forall i, (i < m)%nat -> P (k + i)%nat (nth i l 0).
Proof.
  induction m as [| m IH]; intros k l H i Hi; [lia |].
  simpl in H. inversion H as [| x y xs ys Hxy Hrest]; subst.
  destruct i as [| i]; simpl.
  - rewrite Nat.add_0_r. exact Hxy.
  - replace (k + S i)%nat with (S k + i)%nat by lia. apply IH; [exact Hrest | lia].
Qed.

Lemma is_retry_session n t st h :
  is_retry (session_retry n) t st h = true ->
  In st [500; 502; 503; 504] \/ (h = true /\ In st [413; 429; 503]).
Proof.
  unfold is_retry, in_forcelist. simpl (retry_status_forcelist _).
  destruct (existsb (Z.eqb st) [500; 502; 503; 504]) eqn:E.
  - intros _. left. apply existsb_exists in E as [x [Hx Heq]].
    apply Z.eqb_eq in Heq. subst. exact Hx.
  - intros H. apply andb_prop in H as [H1 H2]. apply andb_prop in H1 as [_ Hh].
    right. split; [exact Hh |]. unfold RETRY_AFTER_STATUS_CODES in H2.
    apply existsb_exists in H2 as [x [Hx Heq]]. apply Z.eqb_eq in Heq. subst. exact Hx.
Qed.

Lemma backoff_session n i :
  backoff_time (session_retry n) (S i) =
  if (i =? 0)%nat then 0 else Z.min 120 (2 ^ Z.of_nat i).
Proof.
  unfold backoff_time. destruct i as [| i]; [reflexivity |].
  replace ((S (S i) <=? 1)%nat) with false by reflexivity.
  replace ((S i =? 0)%nat) with false by reflexivity.
  simpl (retry_backoff_factor _). rewrite Z.mul_1_l. do 2 f_equal. lia.
Qed.

(** X1: for any [retries] value [n] and any server, one request through an
    adapter that [_create_session] mounts sends between [1] and
    [max(n, 0) + 1] requests.  Every request before the last got a
    connection error, a [500], [502], [503] or [504], or a [413], [429] or
    [503] with a [Retry-After] header.  A returned response is the last
    one received, and it has one of the four statuses of the forcelist
    only when the whole budget was spent.  The sleep after the [i]-th
    request is its [Retry-After] value when that is a positive number of
    seconds, and the backoff [0, 2, 4, 8, ...] capped at [120] otherwise.
    [ConnectionError] is raised only when the last allowed request fails
    to connect, and [InvalidHeader] only when a retried response has an
    empty or malformed [Retry-After] header. *)
Theorem session_retry_bounds (n : Z) (a : nat -> Attempt) :
  match urlopen_attempts (session_retry n) a with
  | Ok rep =>
      (1 <= reply_attempts rep <= Z.to_nat n + 1)%nat /\
      (exists ra, a (pred (reply_attempts rep)) = AttemptResponse (reply_status rep) ra) /\
      (forall i, (i < pred (reply_attempts rep))%nat ->
         a i = AttemptError \/
         exists st ra, a i = AttemptResponse st ra /\
           (In st [500; 502; 503; 504] \/ (has_retry_after ra = true /\ In st [413; 429; 503]))) /\
      (In (reply_status rep) [500; 502; 503; 504] ->
         reply_attempts rep = (Z.to_nat n + 1)%nat) /\
      length (reply_sleeps rep) = pred (reply_attempts rep) /\
      (forall i, (i < pred (reply_attempts rep))%nat ->
         nth i (reply_sleeps rep) 0 =
         match a i with
         | AttemptResponse _ (RetryAfterSecs secs) =>
             if Z.eqb secs 0
             then (if (i =? 0)%nat then 0 else Z.min 120 (2 ^ Z.of_nat i))
             else secs
         | _ => if (i =? 0)%nat then 0 else Z.min 120 (2 ^ Z.of_nat i)
         end)
  | Raise e =>
      (e = ConnectionError /\ a (Z.to_nat n) = AttemptError /\
       forall i, (i < Z.to_nat n)%nat ->
         a i = AttemptError \/
         exists st ra, a i = AttemptResponse st ra /\
           (In st [500; 502; 503; 504] \/ (has_retry_after ra = true /\ In st [413; 429; 503]))) \/
      (e = OtherRequestException /\
       exists i st ra, (i < Z.to_nat n)%nat /\ a i = AttemptResponse st ra /\
         (In st [500; 502; 503; 504] \/ (has_retry_after ra = true /\ In st [413; 429; 503])) /\
         (ra = RetryAfterEmpty \/ ra = RetryAfterInvalid))
  end.
Proof.
  assert (Hret : forall i, match a i with | AttemptError => True | AttemptResponse st ra => is_retry (session_retry n) (retry_total (session_retry n) - Z.of_nat i) st (has_retry_after ra) = true end ->
            a i = AttemptError \/
            exists st ra, a i = AttemptResponse st ra /\
              (In st [500; 502; 503; 504] \/ (has_retry_after ra = true /\ In st [413; 429; 503]))).
  { intros i H. destruct (a i) as [| st ra]; [left; reflexivity |].
    right. exists st, ra. split; [reflexivity |]. exact (is_retry_session _ _ _ _ H). }
  pose proof (urlopen_from_spec (session_retry n) a eq_refl
                (Z.to_nat (retry_total (session_retry n))) 0) as H.
  unfold urlopen_attempts. simpl (retry_total _) in *.
  destruct (urlopen_from (session_retry n) a (Z.to_nat n) 0) as [rep | e].
  - destruct H as [Hb [Hl [Hall [Hfin Hsl]]]].
    split; [lia |]. split; [exact Hl |].
    split; [intros i Hi; apply Hret, Hall; lia |].
    split.
    { intros Hin. rewrite Hfin; [lia |].
      destruct Hl as [ra ->]. unfold is_retry, in_forcelist. simpl (retry_status_forcelist _).
      replace (existsb (Z.eqb (reply_status rep)) [500; 502; 503; 504]) with true;
        [reflexivity |].
      symmetry. apply existsb_exists. exists (reply_status rep).
      split; [exact Hin | apply Z.eqb_refl]. }
    rewrite Nat.sub_0_r in Hsl.
    split; [rewrite <- (Forall2_length Hsl), length_seq; reflexivity |].
    intros i Hi. pose proof (Forall2_seq_nth _ _ 0 _ Hsl i Hi) as Hi'.
    simpl in Hi'. rewrite <- (backoff_session n i).
    destruct (a i) as [| st ra]; [exact Hi' |].
    destruct ra as [| | secs |]; simpl in Hi'; try discriminate.
    + congruence.
    + destruct (Z.eqb secs 0); congruence.
  - destruct H as [[-> [Hl Hall]] | [-> [i [st [ra [Hi [Hai [Hr Hs]]]]]]]].
    + left. split; [reflexivity |]. split; [exact Hl |].
      intros i Hi. apply Hret, Hall. lia.
    + right. split; [reflexivity |]. exists i, st, ra.
      split; [lia |]. split; [exact Hai |].
      split; [exact (is_retry_session _ _ _ _ Hr) |].
      destruct ra as [| | secs |]; simpl in Hs.
      * exfalso. exact (Hs _ eq_refl).
      * left. reflexivity.
      * exfalso. destruct (Z.eqb secs 0); exact (Hs _ eq_refl).
      * right. reflexivity.
Qed.



(** X3: with [retries=n], up to [max(n, 0)] answers [503] followed by a
    [200] end with the body stored after [k + 1] requests, while [503] on
    all [max(n, 0) + 1] requests the budget allows ends with nothing
    stored; in particular [retries <= 0] disables retrying. *)
Theorem retries_budget (u body : string) (t n : Z) (p : option string)
    (h : option Headers) (k : nat) (s : Scraper)
    (Hs : Scraper_init (PyStr u) t n (py_opt p) h = Ok s)
    (Hu : startswith u "http://" || startswith u "https://" = true)
    (Hk : (k <= Z.to_nat n)%nat) :
  (exists sl, urlopen (session_retry n) (flaky_server k) = Ok (mkReply 200 (S k) sl)) /\
  scrape (mkHttpEnv None (flaky_server k) body) s = (Ok tt, set_data (Some (mkSoup body)) s) /\
  (exists sl, urlopen (session_retry n) (flaky_server (S (Z.to_nat n))) =
              Ok (mkReply 503 (S (Z.to_nat n)) sl)) /\
  scrape (mkHttpEnv None (flaky_server (S (Z.to_nat n))) body) s = (Ok tt, set_data None s).
Proof.
  assert (Hsucc : exists sl, urlopen (session_retry n) (flaky_server k) = Ok (mkReply 200 (S k) sl)).
  { unfold urlopen, urlopen_attempts. simpl (retry_total _).
    destruct (urlopen_from_success (session_retry n) (flaky_server k) k 0 (Z.to_nat n))
      as [sl Hsl].
    - intros i Hi. unfold flaky_server.
      replace (i <? k)%nat with true by (symmetry; apply Nat.ltb_lt; lia). reflexivity.
    - unfold flaky_server. simpl.
      replace (k <? k)%nat with false by (symmetry; apply Nat.ltb_ge; lia). reflexivity.
    - exact Hk.
    - exists sl. rewrite Hsl. unfold flaky_server. simpl.
      replace (k <? k)%nat with false by (symmetry; apply Nat.ltb_ge; lia). reflexivity. }
  assert (Hexh : exists sl, urlopen (session_retry n) (flaky_server (S (Z.to_nat n))) =
                            Ok (mkReply 503 (S (Z.to_nat n)) sl)).
  { unfold urlopen, urlopen_attempts. simpl (retry_total _).
    destruct (urlopen_from_exhausted (session_retry n) (flaky_server (S (Z.to_nat n)))
                (Z.to_nat n) 0) as [sl Hsl].
    - intros i Hi. unfold flaky_server.
      replace (i <? S (Z.to_nat n))%nat with true by (symmetry; apply Nat.ltb_lt; lia).
      reflexivity.
    - reflexivity.
    - exists sl. rewrite Hsl. unfold flaky_server. simpl.
      replace (Z.to_nat n <? S (Z.to_nat n))%nat with true by (symmetry; apply Nat.ltb_lt; lia).
      reflexivity. }
  repeat split; try assumption.
  - destruct (scrape_init_outcome u body t n p h (flaky_server k) s Hs Hu)
      as [rep [Hrep ->]].
    destruct Hsucc as [sl Hsl]. rewrite Hsl in Hrep. inversion Hrep; subst. reflexivity.
  - destruct (scrape_init_outcome u body t n p h (flaky_server (S (Z.to_nat n))) s Hs Hu)
      as [rep [Hrep ->]].
    destruct Hexh as [sl Hsl]. rewrite Hsl in Hrep. inversion Hrep; subst. reflexivity.
Qed.

Lemma retries_budget_witness :
  Scraper_init (PyStr "https://example.com") 15 0 PyNone None
  = Ok (mkScraper (PyStr "https://example.com") [("User-Agent", default_user_agent)] 15 0
          None None
          (Some (mkSession [("http://", session_retry 0); ("https://", session_retry 0)] []))) /\
  exists sl, urlopen (session_retry 0) (flaky_server 1) = Ok (mkReply 503 1 sl).
Proof.
  split; [reflexivity |].
  apply (retries_budget "https://example.com" "" 15 0 None None 0 _ eq_refl eq_refl (le_n 0)).
Defined.


(** X5: past its two guards, [Scraper.scrape] never leaves the data of an
    earlier call: afterwards [data] is [None] or the body received by this
    very call, whatever the call raised. *)
Theorem scrape_data_fresh (env : HttpEnv) (s : Scraper)
    (Hs : session s <> None) (Hu : url s <> PyNone) :
  data (snd (scrape env s)) = None \/
  data (snd (scrape env s)) = Some (mkSoup (http_body env)).
Proof.
  destruct (session s) as [sess |] eqn:HS; [| congruence].
  rewrite (scrape_eq env s sess HS Hu).
  unfold try_except, scrape_try, scrape_handler, bind, lift.
  unfold session_get.
  destruct (url s) as [| b | z | u | l] eqn:HU; [congruence | | | | ].
  3: { destruct (http_error env) as [e |].
       { simpl. destruct (is_request_exception e); destruct s; simpl; auto. }
       destruct (get_adapter sess u) as [r | e].
       2: { simpl. destruct (is_request_exception e); destruct s; simpl; auto. }
       destruct (urlopen_attempts r (http_attempts env)) as [rep | e].
       2: { simpl. destruct (is_request_exception e); destruct s; simpl; auto. }
       simpl. unfold raise_for_status; simpl.
       destruct ((400 <=? reply_status rep) && (reply_status rep <? 600)); simpl;
         destruct s; simpl; auto. }
  all: simpl; destruct s; simpl; auto.
Qed.

Lemma scrape_data_fresh_witness :
  session (set_data (Some (mkSoup "<old/>")) example_scraper) <> None /\
  url (set_data (Some (mkSoup "<old/>")) example_scraper) <> PyNone /\
  (data (snd (scrape (mkHttpEnv None (fun _ => 500) "<new/>")
                     (set_data (Some (mkSoup "<old/>")) example_scraper))) = None \/
   data (snd (scrape (mkHttpEnv None (fun _ => 500) "<new/>")
                     (set_data (Some (mkSoup "<old/>")) example_scraper))) =
   Some (mkSoup (http_body (mkHttpEnv None (fun _ => 500) "<new/>")))).
Proof.
  split; [discriminate | split; [discriminate |]].
  apply (scrape_data_fresh (mkHttpEnv None (fun _ => 500) "<new/>")
           (set_data (Some (mkSoup "<old/>")) example_scraper)); discriminate.
Defined.

(** X6: an exception from the transport that is not a [RequestException]
    escapes [Scraper.scrape], and the data of an earlier call has already
    been cleared. *)
Theorem scrape_unexpected_error_clears (env : HttpEnv) (s : Scraper) (e : Exn)
    (Hs : session s <> None) (Hstr : exists u, url s = PyStr u)
    (He : http_error env = Some e) (Hn : is_request_exception e = false) :
  scrape env s = (Raise e, set_data None s).
Proof.
  destruct (session s) as [sess |] eqn:HS; [| congruence].
  destruct Hstr as [u Hu].
  rewrite (scrape_eq env s sess HS) by (rewrite Hu; discriminate).
  unfold try_except, scrape_try, scrape_handler, bind, lift, session_get.
  rewrite Hu, He. simpl. rewrite Hn. reflexivity.
Qed.

Lemma scrape_unexpected_error_clears_witness :
  session (set_data (Some (mkSoup "<old/>")) example_scraper) <> None /\
  scrape (mkHttpEnv (Some OtherError) (fun _ => 200) "")
         (set_data (Some (mkSoup "<old/>")) example_scraper)
  = (Raise OtherError, set_data None (set_data (Some (mkSoup "<old/>")) example_scraper)).
Proof.
  split; [discriminate |].
  apply scrape_unexpected_error_clears; [discriminate | eexists; reflexivity | reflexivity | reflexivity].
Defined.

(** X7: a URL the setter accepts but that starts neither with [http://]
    nor with [https://], in any case (such as ["httpfoo"] or
    ["http:/host"]), matches no mounted adapter: [scrape] sends no request,
    catches the [RequestException] requests raises for it, returns normally
    and leaves [data] cleared, whatever the server would answer. *)
Theorem scrape_unmounted_url (u body : string) (t n : Z) (p : option string)
    (h : option Headers) (a : nat -> Attempt) (s : Scraper)
    (Hs : Scraper_init (PyStr u) t n (py_opt p) h = Ok s)
    (Hu : startswith (lower u) "http://" || startswith (lower u) "https://" = false) :
  scrape (mkHttpEnvAttempts None a body) s = (Ok tt, s).
Proof.
  pose proof (Scraper_init_shape u t n p h s Hs) as ->.
  erewrite scrape_eq; [| reflexivity | discriminate].
  unfold try_except, scrape_try, scrape_handler, bind, lift, session_get.
  cbn [url http_error]. unfold get_adapter. cbn [sess_mounts find fst].
  change (lower "http://") with "http://". change (lower "https://") with "https://".
  apply orb_false_elim in Hu as [H1 H2]. rewrite H1, H2. reflexivity.
Qed.

Lemma scrape_unmounted_url_witness :
  Scraper_init (PyStr "httpfoo") 15 5 PyNone None =
    Ok (mkScraper (PyStr "httpfoo") [("User-Agent", default_user_agent)] 15 5 None None
          (Some (mkSession [("http://", session_retry 5); ("https://", session_retry 5)] []))) /\
  scrape (mkHttpEnvAttempts None (fun _ => AttemptResponse 200 NoRetryAfter) "<html></html>")
    (mkScraper (PyStr "httpfoo") [("User-Agent", default_user_agent)] 15 5 None None
       (Some (mkSession [("http://", session_retry 5); ("https://", session_retry 5)] [])))
  = (Ok tt, mkScraper (PyStr "httpfoo") [("User-Agent", default_user_agent)] 15 5 None None
              (Some (mkSession [("http://", session_retry 5); ("https://", session_retry 5)] []))).
Proof.
  split; [reflexivity |].
  exact (scrape_unmounted_url "httpfoo" "<html></html>" 15 5 None None
           (fun _ => AttemptResponse 200 NoRetryAfter) _ eq_refl eq_refl).
Defined.


(** X9: the session a [Scraper] gets in its constructor is the one every
    later [scrape] uses: no setter ([url], [headers], [proxy]), no
    assignment of [timeout], [retries] or [data], and no [scrape] replaces
    it, so changing [retries] or [proxy] after construction does not change
    the retry policy or the proxies in use. *)
Theorem session_fixed_after_init (ops : list Op) (s : Scraper)
    (Hops : forallb (fun o => negb (assigns_session o)) ops = true) :
  session (run ops s) = session s.
Proof.
  revert s Hops. induction ops as [| o os IH]; intros s Hops; simpl in *; [reflexivity |].
  apply andb_prop in Hops as [Ho Hos]. apply negb_true_iff in Ho.
  rewrite IH by exact Hos. apply step_session_fixed, Ho.
Qed.

Lemma session_fixed_after_init_witness :
  forallb (fun o => negb (assigns_session o))
    [OpSetRetries 0; OpSetProxy (PyStr "http://proxy:3128");
     OpScrape (mkHttpEnv None (fun _ => 503) "")] = true /\
  session (run [OpSetRetries 0; OpSetProxy (PyStr "http://proxy:3128");
                OpScrape (mkHttpEnv None (fun _ => 503) "")] example_scraper)
  = session example_scraper.
Proof.
  split; [reflexivity |].
  apply session_fixed_after_init. reflexivity.
Defined.


(** X11: [DynamicScraper.scrape] never reads [headers] or [rate_limit]:
    two objects that differ only there give the same outcome, the same
    browser events and the same stored data (no delay is applied between
    requests). *)
Theorem dynamic_scrape_ignores_rate_limit (env : Dynamic.BrowserEnv) (u : string) (t : Z)
    (h1 h2 : option Headers) (rl1 rl2 : Z) (o : list string) (d : PyVal) :
  let '(r1, s1, ev1) := Dynamic.scrape env (Dynamic.mkDynamicScraper u t h1 rl1 o d) in
  let '(r2, s2, ev2) := Dynamic.scrape env (Dynamic.mkDynamicScraper u t h2 rl2 o d) in
  r1 = r2 /\ ev1 = ev2 /\ Dynamic._data s1 = Dynamic._data s2.
Proof.
  unfold Dynamic.scrape, Dynamic._create_driver, Dynamic.scrape_try, Dynamic.wait_body; simpl.
  destruct (negb (negb (String.eqb u ""))); [auto |].
  destruct (Dynamic.b_launch env); [auto |].
  destruct (Dynamic.b_get env); [auto |].
  destruct (Dynamic.b_wait_error env); [auto |].
  destruct (Dynamic.b_body_at env) as [a |]; [destruct (a <=? t) |]; simpl; auto.
  destruct (Dynamic.b_page_source env); simpl; auto.
Qed.

Example default_options_two_headers :
  Dynamic._default_options (Some [("Accept", "text/html"); ("X-Id", "7")]) =
  ["--disable-gpu"; "--no-sandbox"; "--disable-dev-shm-usage";
   "--header-Accept=text/html"; "--header-X-Id=7"].
Proof. reflexivity. Qed.

Lemma dyn_scrape_keeps_url env s :
  Dynamic.url (snd (fst (Dynamic.scrape env s))) = Dynamic.url s.
Proof.
  unfold Dynamic.scrape.
  destruct (negb (truthy (PyStr (Dynamic.url s)))); [reflexivity |].
  destruct (Dynamic._create_driver env); [| reflexivity].
  unfold Dynamic.scrape_try.
  destruct (Dynamic.b_get env); [reflexivity |].
  destruct (Dynamic.wait_body env _); [destruct (Dynamic.b_page_source env) |];
    reflexivity.
Qed.

Lemma dyn_run_url_accepted ops :
  forall s, url_accepted (PyStr (Dynamic.url s)) = true ->
  url_accepted (PyStr (Dynamic.url (dyn_run ops s))) = true.
Proof.
  induction ops as [| o os IH]; intros s H; simpl; [exact H |].
  apply IH. destruct o as [v | t | h | r | o | d | env]; try exact H.
  - simpl. pose proof (check_url_spec v) as Hc.
    destruct (check_url v) as [u | e]; [| exact H].
    destruct Hc as [Hc ->]. exact Hc.
  - simpl. pose proof (dyn_scrape_keeps_url env s) as Hk.
    destruct (Dynamic.scrape env s) as [[r s'] ev]. simpl in *. rewrite Hk. exact H.
Qed.

(** X12: a [DynamicScraper] holds a non-empty URL starting with ["http"]
    from its construction on, whatever setters, assignments and [scrape]
    calls follow, so the ["URL is not set"] guard of [scrape] is never
    taken: every call starts the browser, and when the browser launches it
    navigates to that URL next. *)
Theorem dynamic_guard_dead (v : PyVal) (t : Z) (o : option (list string))
    (h : option Headers) (rl : Z) (d : Dynamic.DynamicScraper) (ops : list DynOp)
    (env : Dynamic.BrowserEnv)
    (Hd : Dynamic.DynamicScraper_init v t o h rl = Ok d) :
  url_accepted (PyStr (Dynamic.url (dyn_run ops d))) = true /\
  (Dynamic.b_launch env = None ->
   exists rest, snd (Dynamic.scrape env (dyn_run ops d)) =
                Dynamic.Launch :: Dynamic.Navigate (Dynamic.url (dyn_run ops d)) :: rest) /\
  (forall e, Dynamic.b_launch env = Some e ->
   Dynamic.scrape env (dyn_run ops d) = (Raise e, dyn_run ops d, [])).
Proof.
  pose proof (dynamic_init_result v t o h rl) as H. rewrite Hd in H.
  destruct H as [Hacc Hv]. rewrite Hv in Hacc.
  pose proof (dyn_run_url_accepted ops d Hacc) as Hacc'.
  set (s := dyn_run ops d) in *.
  assert (Hne : Dynamic.url s <> "").
  { intros E. rewrite E in Hacc'. discriminate. }
  split; [exact Hacc' |].
  unfold Dynamic.scrape. rewrite (dyn_url_nonempty s Hne).
  unfold Dynamic._create_driver.
  split.
  - intros HL. rewrite HL. unfold Dynamic.scrape_try.
    destruct (Dynamic.b_get env); [simpl; eauto |].
    destruct (Dynamic.wait_body env _); [destruct (Dynamic.b_page_source env) |];
      simpl; eauto.
  - intros e HL. rewrite HL. reflexivity.
Qed.

Lemma dynamic_guard_dead_witness :
  Dynamic.DynamicScraper_init (PyStr "https://example.com") 15 None None 1 = Ok example_dyn /\
  url_accepted (PyStr (Dynamic.url
    (dyn_run [DOpSetUrl PyNone; DOpSetData (PyStr "<p/>"); DOpScrape (browser None "")]
             example_dyn))) = true.
Proof.
  split; [reflexivity |].
  exact (proj1 (dynamic_guard_dead (PyStr "https://example.com") 15 None None 1 example_dyn
           [DOpSetUrl PyNone; DOpSetData (PyStr "<p/>"); DOpScrape (browser None "")]
           (browser (Some 0) "") eq_refl)).
Defined.

(** X13: when launching the browser raises, [DynamicScraper.scrape]
    re-raises that exception without navigating, waiting, reading or
    quitting anything, and leaves the object unchanged. *)
Theorem dynamic_launch_failure (env : Dynamic.BrowserEnv) (s : Dynamic.DynamicScraper) (e : Exn)
    (Hu : Dynamic.url s <> "") (HL : Dynamic.b_launch env = Some e) :
  Dynamic.scrape env s = (Raise e, s, []).
Proof.
  unfold Dynamic.scrape. rewrite (dyn_url_nonempty s Hu).
  unfold Dynamic._create_driver. rewrite HL. reflexivity.
Qed.

Lemma dynamic_launch_failure_witness :
  Dynamic.scrape (Dynamic.mkBrowserEnv (Some OtherError) None None None (Ok "") None) example_dyn
  = (Raise OtherError, example_dyn, []).
Proof. apply dynamic_launch_failure; [discriminate | reflexivity]. Defined.

(** X14: a [WebDriverException] (or [TimeoutException]) raised by
    [driver.get] is caught: the call neither waits nor reads the page, the
    object is unchanged, the driver is quit, and [None] is returned. *)
Theorem dynamic_navigation_error (env : Dynamic.BrowserEnv) (s : Dynamic.DynamicScraper) (e : Exn)
    (Hu : Dynamic.url s <> "") (HL : Dynamic.b_launch env = None)
    (HG : Dynamic.b_get env = Some e) (HW : is_webdriver_exception e = true)
    (HQ : Dynamic.b_quit env = None) :
  Dynamic.scrape env s =
  (Ok tt, s, [Dynamic.Launch; Dynamic.Navigate (Dynamic.url s); Dynamic.Quit]).
Proof.
  unfold Dynamic.scrape. rewrite (dyn_url_nonempty s Hu).
  unfold Dynamic._create_driver, Dynamic.scrape_try. rewrite HL, HG, HQ. simpl.
  rewrite HW. reflexivity.
Qed.

Lemma dynamic_navigation_error_witness :
  Dynamic.scrape (Dynamic.mkBrowserEnv None (Some WebDriverException) None (Some 0) (Ok "") None)
    example_dyn
  = (Ok tt, example_dyn,
     [Dynamic.Launch; Dynamic.Navigate "https://example.com"; Dynamic.Quit]).
Proof.
  exact (dynamic_navigation_error
           (Dynamic.mkBrowserEnv None (Some WebDriverException) None (Some 0) (Ok "") None)
           example_dyn WebDriverException (fun H => ltac:(discriminate H))
           eq_refl eq_refl eq_refl eq_refl).
Defined.

(** X15: when the page was read but [driver.quit] raises, the exception
    escapes [DynamicScraper.scrape] although the new page source has
    already been stored in [_data]. *)
Theorem dynamic_quit_error_after_read (env : Dynamic.BrowserEnv) (s : Dynamic.DynamicScraper)
    (e : Exn) (a : Z) (src : string)
    (Hu : Dynamic.url s <> "") (HL : Dynamic.b_launch env = None)
    (HG : Dynamic.b_get env = None) (HW : Dynamic.b_wait_error env = None)
    (HB : Dynamic.b_body_at env = Some a) (Ha : a <= Dynamic.timeout s)
    (HP : Dynamic.b_page_source env = Ok src) (HQ : Dynamic.b_quit env = Some e) :
  Dynamic.scrape env s =
  (Raise e, Dynamic.set_data (PyStr src) s,
   [Dynamic.Launch; Dynamic.Navigate (Dynamic.url s); Dynamic.WaitBody (Dynamic.timeout s);
    Dynamic.ReadSource; Dynamic.Quit]).
Proof.
  unfold Dynamic.scrape. rewrite (dyn_url_nonempty s Hu).
  unfold Dynamic._create_driver, Dynamic.scrape_try, Dynamic.wait_body.
  rewrite HL, HG, HW, HB, HP, HQ.
  replace (a <=? Dynamic.timeout s) with true by (symmetry; apply Z.leb_le; exact Ha).
  reflexivity.
Qed.

Lemma dynamic_quit_error_after_read_witness :
  Dynamic.scrape (Dynamic.mkBrowserEnv None None None (Some 2) (Ok "<p/>") (Some WebDriverException))
    example_dyn
  = (Raise WebDriverException, Dynamic.set_data (PyStr "<p/>") example_dyn,
     [Dynamic.Launch; Dynamic.Navigate "https://example.com"; Dynamic.WaitBody 15;
      Dynamic.ReadSource; Dynamic.Quit]).
Proof.
  exact (dynamic_quit_error_after_read
           (Dynamic.mkBrowserEnv None None None (Some 2) (Ok "<p/>") (Some WebDriverException))
           example_dyn WebDriverException 2 "<p/>" (fun H => ltac:(discriminate H))
           eq_refl eq_refl eq_refl eq_refl ltac:(simpl; lia) eq_refl eq_refl).
Defined.


